(** * python-fs-stack: the FamilySearch API proxy (familysearch.py)

    A shallow embedding of [familysearch.py] and of the parts of the
    CPython 2.7 standard library it calls ([urlparse.urlsplit],
    [urlparse.parse_qsl], [urlparse.urlunsplit], [urllib.urlencode], and
    [urllib2.Request] with the [unwrap], [splittag] and [request_host] steps
    of its constructor).  Python 2 [str] values are byte strings, modelled by
    [string] (a list of 8-bit [ascii]).  The HTTP opener with its cookie jar
    and the [enunciate.identity] parser are external collaborators and are
    taken as parameters of the client section. *)

From Stdlib Require Import Bool Arith Lia List Ascii String.
From Stdlib Require Import Sorting.Permutation.
Import ListNotations.

Set Implicit Arguments.
Open Scope list_scope.
Open Scope string_scope.

(** ** Python values and exceptions *)

(** Optional string arguments: [None] or a [str]. *)
Inductive pyval : Type :=
| PyNone
| PyStr (s : string).

(** [str(v)] *)
Definition str_ (v : pyval) : string :=
  match v with
  | PyNone => "None"
  | PyStr s => s
  end.

(** Truth value of [v] in an [if]: [None] and [''] are false. *)
Definition truthy (v : pyval) : bool :=
  match v with
  | PyNone => false
  | PyStr "" => false
  | PyStr _ => true
  end.

(** Exceptions: [ValueError] is raised by [urlparse]; everything the HTTP
    opener or the identity parser raises is an [ExternalError]. *)
Inductive exn : Type :=
| ValueError (msg : string)
| ExternalError (name : string).

(** A computation that returns or raises. *)
Definition result (A : Type) : Type := (exn + A)%type.
Definition Raise {A} (e : exn) : result A := inl e.
Definition Return {A} (a : A) : result A := inr a.

(** ** Byte-string primitives *)

Module Str.

(** [s[i:]] *)
Fixpoint slice_from (i : nat) (s : string) : string :=
  match i, s with
  | 0, _ => s
  | S i', String _ s' => slice_from i' s'
  | S _, EmptyString => EmptyString
  end.

(** [s[:i]] *)
Fixpoint slice_to (i : nat) (s : string) : string :=
  match i, s with
  | 0, _ => EmptyString
  | S i', String c s' => String c (slice_to i' s')
  | S _, EmptyString => EmptyString
  end.

(** [s[i:j]] *)
Definition slice (i j : nat) (s : string) : string :=
  slice_to (j - i) (slice_from i s).

(** [c in s] *)
Fixpoint contains (c : ascii) (s : string) : bool :=
  match s with
  | EmptyString => false
  | String a s' => Ascii.eqb a c || contains c s'
  end.

(** [s.find(c)]; [None] stands for [-1]. *)
Fixpoint find (c : ascii) (s : string) : option nat :=
  match s with
  | EmptyString => None
  | String a s' => if Ascii.eqb a c then Some 0 else option_map S (find c s')
  end.

(** [s.find(c, start)] *)
Definition find_from (c : ascii) (start : nat) (s : string) : option nat :=
  option_map (Nat.add start) (find c (slice_from start s)).

(** [s.split(c, 1)] when [c in s]: the text before and after the first
    [c]; [None] when the split yields a single element. *)
Fixpoint split_once (c : ascii) (s : string) : option (string * string) :=
  match s with
  | EmptyString => None
  | String a s' =>
      if Ascii.eqb a c then Some (EmptyString, s')
      else match split_once c s' with
           | Some (l, r) => Some (String a l, r)
           | None => None
           end
  end.

(** [s.split(c)] *)
Fixpoint split (c : ascii) (s : string) : list string :=
  match s with
  | EmptyString => [EmptyString]
  | String a s' =>
      if Ascii.eqb a c then EmptyString :: split c s'
      else match split c s' with
           | h :: t => String a h :: t
           | [] => [String a EmptyString]
           end
  end.

(** [sep.join(l)] *)
Fixpoint join (sep : string) (l : list string) : string :=
  match l with
  | [] => EmptyString
  | [x] => x
  | x :: rest => x ++ sep ++ join sep rest
  end.

(** [s.replace(a, b)] for single characters *)
Fixpoint replace (a b : ascii) (s : string) : string :=
  match s with
  | EmptyString => EmptyString
  | String c s' => String (if Ascii.eqb c a then b else c) (replace a b s')
  end.

Definition is_upper (c : ascii) : bool :=
  ((65 <=? nat_of_ascii c) && (nat_of_ascii c <=? 90))%nat.
Definition is_lower (c : ascii) : bool :=
  ((97 <=? nat_of_ascii c) && (nat_of_ascii c <=? 122))%nat.
Definition is_digit (c : ascii) : bool :=
  ((48 <=? nat_of_ascii c) && (nat_of_ascii c <=? 57))%nat.

Definition lower_char (c : ascii) : ascii :=
  if is_upper c then ascii_of_nat (nat_of_ascii c + 32) else c.
Definition upper_char (c : ascii) : ascii :=
  if is_lower c then ascii_of_nat (nat_of_ascii c - 32) else c.

(** [s.lower()] *)
Fixpoint lower (s : string) : string :=
  match s with
  | EmptyString => EmptyString
  | String c s' => String (lower_char c) (lower s')
  end.

(** [s.capitalize()] *)
Definition capitalize (s : string) : string :=
  match s with
  | EmptyString => EmptyString
  | String c s' => String (upper_char c) (lower s')
  end.

(** [c.isspace()] for a byte: space, tab, newline, vertical tab, form feed,
    carriage return. *)
Definition is_space (c : ascii) : bool :=
  (nat_of_ascii c =? 32)%nat || ((9 <=? nat_of_ascii c) && (nat_of_ascii c <=? 13))%nat.

(** [s.lstrip()] *)
Fixpoint lstrip (s : string) : string :=
  match s with
  | EmptyString => EmptyString
  | String c s' => if is_space c then lstrip s' else s
  end.

(** [s.rstrip()] *)
Fixpoint rstrip (s : string) : string :=
  match s with
  | EmptyString => EmptyString
  | String c s' =>
      match rstrip s' with
      | EmptyString => if is_space c then EmptyString else String c EmptyString
      | r => String c r
      end
  end.

(** [s.strip()] *)
Definition strip (s : string) : string := rstrip (lstrip s).

(** [s[-1:]] *)
Fixpoint last_char (s : string) : string :=
  match s with
  | EmptyString => EmptyString
  | String c EmptyString => String c EmptyString
  | String _ s' => last_char s'
  end.

(** [s[:-1]] *)
Fixpoint drop_last (s : string) : string :=
  match s with
  | EmptyString => EmptyString
  | String c EmptyString => EmptyString
  | String c s' => String c (drop_last s')
  end.

(** The text before and after the last [c] of [s]; [None] when [s] has no
    [c]. *)
Fixpoint rsplit_once (c : ascii) (s : string) : option (string * string) :=
  match s with
  | EmptyString => None
  | String a s' =>
      match rsplit_once c s' with
      | Some (l, r) => Some (String a l, r)
      | None => if Ascii.eqb a c then Some (EmptyString, s') else None
      end
  end.

(** [all(p(c) for c in s)] *)
Fixpoint all (p : ascii -> bool) (s : string) : bool :=
  match s with
  | EmptyString => true
  | String c s' => p c && all p s'
  end.

(** [s1.join(map(f, s))] with an empty separator *)
Fixpoint concat_map (f : ascii -> string) (s : string) : string :=
  match s with
  | EmptyString => EmptyString
  | String c s' => f c ++ concat_map f s'
  end.

End Str.

(** ** urllib: quoting *)

Module urllib.

(** [always_safe]: ASCII letters, digits and ['_.-']. *)
Definition always_safe (c : ascii) : bool :=
  Str.is_upper c || Str.is_lower c || Str.is_digit c
  || Str.contains c "_.-".

(** One upper-case hexadecimal digit of ['%02X']. *)
Definition hexdigit (n : nat) : ascii :=
  if (n <? 10)%nat then ascii_of_nat (48 + n) else ascii_of_nat (55 + n).

(** [_safe_map] updated with the [safe] characters: the quoter of one
    character. *)
Definition quoter (safe : string) (c : ascii) : string :=
  if always_safe c || Str.contains c safe then String c EmptyString
  else String "%" (String (hexdigit (nat_of_ascii c / 16))
                     (String (hexdigit (nat_of_ascii c mod 16)) EmptyString)).

(** [urllib.quote(s, safe)] *)
Definition quote (s safe : string) : string :=
  Str.concat_map (quoter safe) s.

(** [urllib.quote_plus(s, safe='')] *)
Definition quote_plus (s : string) : string :=
  if Str.contains " " s
  then Str.replace " " "+" (quote s " ")
  else quote s "".

(** [urllib.urlencode(query)] for a sequence of two-element tuples of
    strings ([doseq] is 0). *)
Definition urlencode (query : list (string * string)) : string :=
  Str.join "&" (map (fun kv => quote_plus (fst kv) ++ "=" ++ quote_plus (snd kv)) query).

(** What [quote_plus] writes for one character: ['+'] for a space, the
    character itself when it is always safe, its ['%XX'] escape otherwise. *)
Definition plus_quoter (c : ascii) : string :=
  if Ascii.eqb c " " then "+" else quoter "" c.

(** Value of a hexadecimal digit, either case ([_hexdig]). *)
Definition hexval (c : ascii) : option nat :=
  let n := nat_of_ascii c in
  if Str.is_digit c then Some (n - 48)
  else if ((65 <=? n) && (n <=? 70))%nat then Some (n - 55)
  else if ((97 <=? n) && (n <=? 102))%nat then Some (n - 87)
  else None.

(** One [item] of [s.split('%')[1:]] in [unquote]: [_hextochr[item[:2]] +
    item[2:]], or ['%' + item] on [KeyError]. *)
Definition unquote_item (item : string) : string :=
  match item with
  | String a (String b rest) =>
      match hexval a, hexval b with
      | Some x, Some y => String (ascii_of_nat (16 * x + y)) rest
      | _, _ => String "%" item
      end
  | _ => String "%" item
  end.

(** [urllib.unquote(s)] *)
Definition unquote (s : string) : string :=
  match Str.split "%" s with
  | [] => s
  | b0 :: bits => Str.join "" (b0 :: map unquote_item bits)
  end.

(** What a form decoder does to a name or a value: ['+'] back to a space,
    then [unquote] (the two steps of [parse_qsl]). *)
Definition unquote_plus (s : string) : string :=
  unquote (Str.replace "+" " " s).

(** Checked on each of the 256 characters: the text [plus_quoter] writes
    for [c] is either one character that is not ['%'] and decodes to [c], or
    a ['%'] followed by two hexadecimal digits whose value is [c]. *)
Definition plus_quoter_decodes (c : ascii) : bool :=
  match plus_quoter c with
  | String d EmptyString =>
      Ascii.eqb (if Ascii.eqb d "+" then " "%char else d) c && negb (Ascii.eqb d "%")
  | String p (String a (String b EmptyString)) =>
      Ascii.eqb p "%" && negb (Ascii.eqb a "+") && negb (Ascii.eqb b "+")
      && negb (Ascii.eqb a "%") && negb (Ascii.eqb b "%")
      && match hexval a, hexval b with
         | Some x, Some y => Ascii.eqb (ascii_of_nat (16 * x + y)) c
         | _, _ => false
         end
  | _ => false
  end.

(** The characters that structure a URL and its query string. *)
Definition separators : list ascii :=
  ["&"; ";"; "="; "?"; "#"]%char.

(** Checked on each character: what [plus_quoter] writes holds none of the
    [separators], and is not empty. *)
Definition plus_quoter_clean (c : ascii) : bool :=
  forallb (fun sep => negb (Str.contains sep (plus_quoter c))) separators
  && negb (String.eqb (plus_quoter c) "").

End urllib.

(** ** urlparse *)

Module urlparse.

(** [SplitResult(scheme, netloc, path, query, fragment)] *)
Record SplitResult : Type := mkSplitResult {
  scheme : string;
  netloc : string;
  path : string;
  query : string;
  fragment : string
}.

Definition uses_netloc : list string :=
  ["ftp"; "http"; "gopher"; "nntp"; "telnet"; "imap"; "wais"; "file";
   "mms"; "https"; "shttp"; "snews"; "prospero"; "rtsp"; "rtspu"; "rsync";
   ""; "svn"; "svn+ssh"; "sftp"; "nfs"; "git"; "git+ssh"].

(** [scheme_chars]: letters, digits and ['+-.'] *)
Definition scheme_char (c : ascii) : bool :=
  Str.is_lower c || Str.is_upper c || Str.is_digit c
  || Str.contains c "+-.".

(** [_splitnetloc(url, start)]: the earliest of ['/'], ['?'], ['#'] at or
    after [start] delimits the network location. *)
Definition _splitnetloc (url : string) (start : nat) : string * string :=
  let delim :=
    fold_left
      (fun delim c =>
         match Str.find_from c start url with
         | Some wdelim => Nat.min delim wdelim
         | None => delim
         end)
      ["/"%char; "?"%char; "#"%char] (String.length url) in
  (Str.slice start delim url, Str.slice_from delim url).

(** The part of [urlsplit] that both of its paths share once the scheme is
    decided: network location (with the bracket check of IPv6 literals),
    fragment, query. *)
Definition split_rest (scheme url : string) : result SplitResult :=
  let '(netloc_ok, netloc, url) :=
    if String.eqb (Str.slice_to 2 url) "//" then
      let '(netloc, url) := _splitnetloc url 2 in
      (negb ((Str.contains "[" netloc && negb (Str.contains "]" netloc))
             || (Str.contains "]" netloc && negb (Str.contains "[" netloc))),
       netloc, url)
    else (true, EmptyString, url) in
  if negb netloc_ok then Raise (ValueError "Invalid IPv6 URL")
  else
    let '(url, fragment) :=
      match Str.split_once "#" url with
      | Some (u, f) => (u, f)
      | None => (url, EmptyString)
      end in
    let '(url, query) :=
      match Str.split_once "?" url with
      | Some (u, q) => (u, q)
      | None => (url, EmptyString)
      end in
    Return (mkSplitResult scheme netloc url query fragment).

(** [urlparse.urlsplit(url)] with the default [scheme=''] and
    [allow_fragments=True]; the result cache does not change what is
    returned. *)
Definition urlsplit (url : string) : result SplitResult :=
  match Str.find ":" url with
  | Some (S i') =>
      let i := S i' in
      if String.eqb (Str.slice_to i url) "http" then
        split_rest (Str.lower (Str.slice_to i url)) (Str.slice_from (i + 1) url)
      else if Str.all scheme_char (Str.slice_to i url) then
        let rest := Str.slice_from (i + 1) url in
        if String.eqb rest "" || negb (Str.all Str.is_digit rest)
        then split_rest (Str.lower (Str.slice_to i url)) rest
        else split_rest "" url
      else split_rest "" url
  | _ => split_rest "" url
  end.

(** [urlparse.urlunsplit((scheme, netloc, url, query, fragment))] *)
Definition urlunsplit (scheme netloc url query fragment : string) : string :=
  let url :=
    if negb (String.eqb netloc "")
       || (negb (String.eqb scheme "")
           && existsb (String.eqb scheme) uses_netloc
           && negb (String.eqb (Str.slice_to 2 url) "//"))
    then
      let url :=
        if negb (String.eqb url "") && negb (String.eqb (Str.slice_to 1 url) "/")
        then "/" ++ url else url in
      "//" ++ netloc ++ url
    else url in
  let url := if negb (String.eqb scheme "") then scheme ++ ":" ++ url else url in
  let url := if negb (String.eqb query "") then url ++ "?" ++ query else url in
  let url := if negb (String.eqb fragment "") then url ++ "#" ++ fragment else url in
  url.

(** One [name_value] field of [parse_qsl] with [keep_blank_values=0] and
    [strict_parsing=0]: the decoded pair it contributes, if any. *)
Definition parse_field (name_value : string) : option (string * string) :=
  if String.eqb name_value "" then None
  else
    match Str.split_once "=" name_value with
    | None => None
    | Some (n, v) =>
        if negb (String.length v =? 0)%nat
        then Some (urllib.unquote (Str.replace "+" " " n),
                   urllib.unquote (Str.replace "+" " " v))
        else None
    end.

(** [urlparse.parse_qsl(qs)] *)
Definition parse_qsl (qs : string) : list (string * string) :=
  let pairs := flat_map (Str.split ";") (Str.split "&" qs) in
  flat_map (fun name_value =>
              match parse_field name_value with
              | Some nv => [nv]
              | None => []
              end) pairs.

End urlparse.

(** ** FamilySearch._add_json_format *)

Definition _add_json_format (url : string) : result string :=
  match urlparse.urlsplit url with
  | inl e => Raise e
  | inr parts =>
      let query_parts := urlparse.parse_qsl (urlparse.query parts) in
      let query_parts := (query_parts ++ [("dataFormat", "application/json")])%list in
      let query := urllib.urlencode query_parts in
      Return (urlparse.urlunsplit (urlparse.scheme parts) (urlparse.netloc parts)
                (urlparse.path parts) query (urlparse.fragment parts))
  end.

(** ** Vocabulary for the properties of URLs *)

(** One of the characters that end a network location. *)
Definition netloc_delimiter (c : ascii) : bool :=
  Ascii.eqb c "/" || Ascii.eqb c "?" || Ascii.eqb c "#".

(** Length of the longest prefix of [s] without a delimiter. *)
Fixpoint netloc_end (s : string) : nat :=
  match s with
  | EmptyString => 0
  | String c s' => if netloc_delimiter c then 0 else S (netloc_end s')
  end.

(** What follows the network location is empty or starts with a delimiter. *)
Definition starts_with_delimiter (s : string) : bool :=
  match s with
  | EmptyString => true
  | String c _ => netloc_delimiter c
  end.

(** [s.split(c, 1)[0]]: the text before the first [c], all of [s] when there
    is none. *)
Definition before (c : ascii) (s : string) : string :=
  match Str.split_once c s with
  | Some (u, _) => u
  | None => s
  end.

(** The text after the first [c], empty when there is none. *)
Definition after (c : ascii) (s : string) : string :=
  match Str.split_once c s with
  | Some (_, v) => v
  | None => EmptyString
  end.

(** The bracket test [urlsplit] applies to a network location. *)
Definition brackets_ok (netloc : string) : bool :=
  negb ((Str.contains "[" netloc && negb (Str.contains "]" netloc))
        || (Str.contains "]" netloc && negb (Str.contains "[" netloc))).

(** A path that can follow a network location: empty, or starting with a
    slash. *)
Definition path_rooted (path : string) : bool :=
  match path with
  | EmptyString => true
  | String c _ => Ascii.eqb c "/"
  end.

(** The shape of a scheme [urlsplit] returns: empty, or lower-case scheme
    characters. *)
Definition scheme_shape (scheme : string) : Prop :=
  scheme = "" \/
  (scheme <> "" /\ Str.all urlparse.scheme_char scheme = true /\ Str.lower scheme = scheme).

(** The shape of the parts [urlsplit] returns for a URL with a network
    location. *)
Record split_shape (p : urlparse.SplitResult) : Prop := mkSplitShape {
  shape_scheme : scheme_shape (urlparse.scheme p);
  shape_netloc : forall c, netloc_delimiter c = true ->
                           Str.contains c (urlparse.netloc p) = false;
  shape_brackets : brackets_ok (urlparse.netloc p) = true;
  shape_path_rooted : path_rooted (urlparse.path p) = true;
  shape_path_query : Str.contains "?" (urlparse.path p) = false;
  shape_path_fragment : Str.contains "#" (urlparse.path p) = false
}.

(** A square bracket. *)
Definition is_bracket (c : ascii) : bool := Ascii.eqb c "[" || Ascii.eqb c "]".

(** Checked on each character: what [plus_quoter] writes holds no square
    bracket, and lower-casing neither makes nor removes one. *)
Definition bracket_free_char (a : ascii) : bool :=
  negb (Str.contains "[" (urllib.plus_quoter a))
  && negb (Str.contains "]" (urllib.plus_quoter a))
  && Bool.eqb (Ascii.eqb (Str.lower_char a) "[") (Ascii.eqb a "[")
  && Bool.eqb (Ascii.eqb (Str.lower_char a) "]") (Ascii.eqb a "]").

(** The fragment as [urlunsplit] writes it. *)
Definition fragment_suffix (fragment : string) : string :=
  if String.eqb fragment "" then "" else "#" ++ fragment.

(** ** urllib2.Request *)

Module urllib2.

(** [urllib.unwrap(url)]: surrounding white space, an enclosing [<...>] and
    a leading [URL:] are removed. *)
Definition unwrap (url : string) : string :=
  let url := Str.strip url in
  let url :=
    if String.eqb (Str.slice_to 1 url) "<" && String.eqb (Str.last_char url) ">"
    then Str.strip (Str.drop_last (Str.slice_from 1 url))
    else url in
  let url :=
    if String.eqb (Str.slice_to 4 url) "URL:"
    then Str.strip (Str.slice_from 4 url)
    else url in
  url.

(** [urllib.splittag(url)]: its regular expression (any characters but
    newlines, a ['#'], then characters other than ['#'] up to the end) cuts
    the URL at its last ['#'], and matches when the text before that ['#']
    has no newline; otherwise the tag is [None]. *)
Definition splittag (url : string) : string * option string :=
  match Str.rsplit_once "#" url with
  | Some (path, tag) =>
      if Str.contains "010"%char path then (url, None) else (path, Some tag)
  | None => (url, None)
  end.

(** A [urllib2.Request]: the URL as the constructor keeps it ([__original]
    and [__fragment]), the [data] argument ([None] when it is not supplied)
    and the [headers] dictionary.  [origin_req_host], which the constructor
    computes from the full URL, is not kept: it is a function of the fields
    that are. *)
Record Request : Type := mkRequest {
  original : string;
  fragment : option string;
  data : option string;
  headers : list (string * string)
}.

(** [Request.get_full_url()]: ['%s#%s' % (original, fragment)] when the
    fragment is a non-empty string, else [original]. *)
Definition get_full_url (r : Request) : string :=
  match fragment r with
  | Some (String c f) => original r ++ "#" ++ String c f
  | _ => original r
  end.

(** [urllib2.Request(url, data)]: [Request.__init__] unwraps the URL, cuts
    its fragment off and, for [origin_req_host], calls [request_host(self)],
    whose [urlparse.urlparse(self.get_full_url())] raises what [urlsplit]
    raises. *)
Definition new (url : string) (data : option string) : result Request :=
  let '(original, fragment) := splittag (unwrap url) in
  let self := mkRequest original fragment data [] in
  match urlparse.urlsplit (get_full_url self) with
  | inl e => Raise e
  | inr _ => Return self
  end.

(** [d[k] = v] on a dictionary kept as an association list. *)
Fixpoint dict_set (k v : string) (d : list (string * string)) : list (string * string) :=
  match d with
  | [] => [(k, v)]
  | (k', v') :: d' =>
      if String.eqb k' k then (k, v) :: d' else (k', v') :: dict_set k v d'
  end.

(** [d.get(k)] *)
Fixpoint dict_get (k : string) (d : list (string * string)) : option string :=
  match d with
  | [] => None
  | (k', v') :: d' => if String.eqb k' k then Some v' else dict_get k d'
  end.

(** [Request.add_header(key, val)]: [self.headers[key.capitalize()] = val] *)
Definition add_header (key val : string) (r : Request) : Request :=
  mkRequest (original r) (fragment r) (data r)
    (dict_set (Str.capitalize key) val (headers r)).

(** [Request.get_header(header_name)] *)
Definition get_header (header_name : string) (r : Request) : option string :=
  dict_get header_name (headers r).

(** [Request.get_method()]: ["POST"] if [self.has_data()], that is if
    [self.data is not None], else ["GET"]. *)
Definition get_method (r : Request) : string :=
  match data r with
  | Some _ => "POST"
  | None => "GET"
  end.

End urllib2.

(** ** Stand-ins for the external collaborators

    A remote service that counts the requests it has served, answers each
    with an identity document naming session [S123] and sets a cookie; one
    that refuses every connection; and a parser that reads the session
    identifier off the document. *)

Module Mock.

Definition Response : Type := string.
Definition CookieJar : Type := list string.
Definition Server : Type := nat.

Definition empty_jar : CookieJar := [].

Definition opener_open (jar : CookieJar) (srv : Server) (request : urllib2.Request)
  : result Response * CookieJar * Server :=
  (Return "S123", ("sessionid=S123" :: jar)%list, S srv).

Definition opener_refused (jar : CookieJar) (srv : Server) (request : urllib2.Request)
  : result Response * CookieJar * Server :=
  (Raise (ExternalError "URLError"), jar, srv).

Definition identity_parse_session_id (response : Response) : result pyval :=
  if String.eqb response "" then Raise (ExternalError "ValueError")
  else Return (PyStr response).

Definition dict_items (d : list (string * pyval)) : list (string * pyval) := d.

End Mock.

(** ** The FamilySearch class *)

Definition __version__ : string := "0.1".

Section Client.

(** The response object returned by the opener, the cookie jar owned by
    the opener's [HTTPCookieProcessor], and the state of the remote
    service. *)
Variables Response CookieJar Server : Type.

(** The jar of a freshly built opener. *)
Variable empty_jar : CookieJar.

(** [opener.open(request)]: returns the response or raises; the cookie jar
    and the remote service may change either way. *)
Variable opener_open :
  CookieJar -> Server -> urllib2.Request -> result Response * CookieJar * Server.

(** [identity.parse(response).session.id] of the [enunciate] package:
    returns the session identifier or raises. *)
Variable identity_parse_session_id : Response -> result pyval.

(** [d.items()] of a dictionary literal, given with its entries in source
    order: the iteration order of a Python 2 [dict] is unspecified. *)
Variable dict_items : list (string * pyval) -> list (string * pyval).

(** [d.items()] lists the entries of [d], in some order. *)
Hypothesis dict_items_perm : forall d, Permutation (dict_items d) d.

(** [urllib.urlencode(d)] of a dictionary: [str] of each value, in the
    order of [d.items()]. *)
Definition urlencode_dict (d : list (string * pyval)) : string :=
  urllib.urlencode (map (fun kv => (fst kv, str_ (snd kv))) (dict_items d)).

Record FamilySearch : Type := mkFamilySearch {
  agent : string;
  key : pyval;
  session : pyval;
  base : string;
  login_url : string;
  initialize_url : string;
  authenticate_url : string;
  opener : CookieJar
}.

(** What lies outside the client: the remote service, and the requests
    handed to [opener.open] so far (oldest first). *)
Record Net : Type := mkNet {
  server : Server;
  sent : list urllib2.Request
}.

(** A method body: reads and updates [self] and the network, returns or
    raises. *)
Definition M (A : Type) : Type :=
  FamilySearch -> Net -> result A * FamilySearch * Net.

Definition ret {A} (a : A) : M A := fun self net => (Return a, self, net).

Definition bind {A B} (m : M A) (k : A -> M B) : M B :=
  fun self net =>
    match m self net with
    | (inl e, self', net') => (Raise e, self', net')
    | (inr a, self', net') => k a self' net'
    end.

Notation "x <- m ;; k" := (bind m (fun x => k))
  (at level 61, m at next level, right associativity).
Notation "m ;; k" := (bind m (fun _ => k))
  (at level 61, right associativity).

(** A pure call that may raise. *)
Definition lift {A} (r : result A) : M A := fun self net => (r, self, net).

(** [self.<field>] *)
Definition attr {A} (field : FamilySearch -> A) : M A :=
  fun self net => (Return (field self), self, net).

(** [self] with its [session] attribute replaced. *)
Definition with_session (self : FamilySearch) (v : pyval) : FamilySearch :=
  mkFamilySearch (agent self) (key self) v (base self) (login_url self)
    (initialize_url self) (authenticate_url self) (opener self).

(** [self] after its opener's cookie jar has changed. *)
Definition with_opener (self : FamilySearch) (jar : CookieJar) : FamilySearch :=
  mkFamilySearch (agent self) (key self) (session self) (base self)
    (login_url self) (initialize_url self) (authenticate_url self) jar.

(** [self.session = v] *)
Definition set_session (v : pyval) : M unit :=
  fun self net => (Return tt, with_session self v, net).

(** [self.opener.open(request)] *)
Definition open (request : urllib2.Request) : M Response :=
  fun self net =>
    let '(r, jar, srv) := opener_open (opener self) (server net) request in
    (r, with_opener self jar, mkNet srv (sent net ++ [request])%list).

Definition _request (url : string) (data : option string) : M Response :=
  url <- lift (_add_json_format url) ;;
  request <- lift (urllib2.new url data) ;;
  agent <- attr agent ;;
  let request := urllib2.add_header "User-Agent" agent request in
  open request.

Definition login (username password : pyval) : M pyval :=
  key <- attr key ;;
  let credentials :=
    urlencode_dict [("username", username); ("password", password); ("key", key)] in
  login_url <- attr login_url ;;
  response <- _request login_url (Some credentials) ;;
  id <- lift (identity_parse_session_id response) ;;
  set_session id ;;
  attr session.

Definition initialize : M pyval :=
  key <- attr key ;;
  let key := urlencode_dict [("key", key)] in
  initialize_url <- attr initialize_url ;;
  response <- _request initialize_url (Some key) ;;
  id <- lift (identity_parse_session_id response) ;;
  set_session id ;;
  attr session.

Definition authenticate (username password : pyval) : M pyval :=
  let credentials :=
    urlencode_dict [("username", username); ("password", password)] in
  authenticate_url <- attr authenticate_url ;;
  response <- _request authenticate_url (Some credentials) ;;
  id <- lift (identity_parse_session_id response) ;;
  set_session id ;;
  attr session.

(** [FamilySearch(agent, key, username, password, session, base)]: the
    object as [__init__] leaves it, whether it returns or raises. *)
Definition __init__ (agent : string) (key username password session : pyval)
    (base : string) (net : Net) : result unit * FamilySearch * Net :=
  let identity_base := base ++ "/identity/v2/" in
  let self :=
    mkFamilySearch (agent ++ " Python-FS-Stack/" ++ __version__) key session base
      (identity_base ++ "login") (identity_base ++ "initialize")
      (identity_base ++ "authenticate") empty_jar in
  if truthy username && truthy password
  then (login username password ;; ret tt) self net
  else (Return tt, self, net).

(** The default of the [base] argument. *)
Definition default_base : string := "http://www.dev.usys.org".

(** A call of one of the methods on an existing client. *)
Inductive call : Type :=
| Login (username password : pyval)
| Initialize
| Authenticate (username password : pyval)
| Dispatch (url : string) (data : option string).

(** One call; the caller may catch what it raises and go on. *)
Definition run_call (c : call) (self : FamilySearch) (net : Net) : FamilySearch * Net :=
  match c with
  | Login u p => let '(_, self', net') := login u p self net in (self', net')
  | Initialize => let '(_, self', net') := initialize self net in (self', net')
  | Authenticate u p => let '(_, self', net') := authenticate u p self net in (self', net')
  | Dispatch url data => let '(_, self', net') := _request url data self net in (self', net')
  end.

Fixpoint run_calls (cs : list call) (self : FamilySearch) (net : Net) : FamilySearch * Net :=
  match cs with
  | [] => (self, net)
  | c :: cs' => let '(self', net') := run_call c self net in run_calls cs' self' net'
  end.

(** *** Vocabulary of the properties *)

(** What [_request] has when it reaches [self.opener.open]: the request it
    built, with its user-agent header, or the exception that URL rewriting
    or the [Request] constructor raised. *)
Definition prepare (self : FamilySearch) (url : string) (data : option string)
  : result urllib2.Request :=
  match _add_json_format url with
  | inl e => Raise e
  | inr url' =>
      match urllib2.new url' data with
      | inl e => Raise e
      | inr request => Return (urllib2.add_header "User-Agent" (agent self) request)
      end
  end.

(** The URL a [Request] built from [url] answers to [get_full_url()]. *)
Definition normalized (url : string) : string :=
  let '(original, fragment) := urllib2.splittag (urllib2.unwrap url) in
  urllib2.get_full_url (urllib2.mkRequest original fragment None []).

(** The exception a call ended with, if any. *)
Definition raised {A} (r : result A) : option exn :=
  match r with
  | inl e => Some e
  | inr _ => None
  end.

(** The three authentication methods share one shape: POST [body] to
    [url], parse, store, return. *)
Definition session_call (url body : string) : M pyval :=
  response <- _request url (Some body) ;;
  id <- lift (identity_parse_session_id response) ;;
  set_session id ;;
  attr session.

(** All or nothing: a call that returns has stored the identifier parsed
    from the response to the one request it sent and returns it; a call
    that raises leaves [self.session] as it was, and raises either before
    anything is sent (URL rewriting), or what the opener raised for the
    request, or what the parser raised for its response. *)
Definition all_or_nothing (m : M pyval) : Prop :=
  forall self net,
    match m self net with
    | (inr id, self', net') =>
        session self' = id /\
        exists request response,
          sent net' = (sent net ++ [request])%list /\
          opener_open (opener self) (server net) request
            = (inr response, opener self', server net') /\
          identity_parse_session_id response = inr id
    | (inl e, self', net') =>
        session self' = session self /\
        ((self' = self /\ net' = net) \/
         exists request,
           sent net' = (sent net ++ [request])%list /\
           (opener_open (opener self) (server net) request
              = (inl e, opener self', server net') \/
            exists response,
              opener_open (opener self) (server net) request
                = (inr response, opener self', server net') /\
              identity_parse_session_id response = inl e))
    end.

(** The attributes fixed at construction. *)
Definition same_identity (self self' : FamilySearch) : Prop :=
  agent self' = agent self /\ key self' = key self /\ base self' = base self /\
  login_url self' = login_url self /\ initialize_url self' = initialize_url self /\
  authenticate_url self' = authenticate_url self.

(** The object [__init__] has set up when it reaches its [if]. *)
Definition fresh (agent : string) (key session : pyval) (base : string) : FamilySearch :=
  mkFamilySearch (agent ++ " Python-FS-Stack/" ++ __version__) key session base
    ((base ++ "/identity/v2/") ++ "login") ((base ++ "/identity/v2/") ++ "initialize")
    ((base ++ "/identity/v2/") ++ "authenticate") empty_jar.

(** Construct without credentials, then call [login]. *)
Definition construct_then_login (agent : string) (key username password session : pyval)
    (base : string) (net : Net) : result pyval * FamilySearch * Net :=
  let '(_, self, net1) := __init__ agent key PyNone PyNone session base net in
  login username password self net1.

(** Two runs are behaviourally equivalent: same client state (session and
    cookies included), same network, same exception if any. *)
Definition same_behaviour {A B} (r1 : result A * FamilySearch * Net)
    (r2 : result B * FamilySearch * Net) : Prop :=
  snd (fst r1) = snd (fst r2) /\ snd r1 = snd r2 /\
  raised (fst (fst r1)) = raised (fst (fst r2)).

(** The request carries, under the name [add_header] files ['User-Agent']
    under, the header value [a]. *)
Definition carries_user_agent (a : string) (request : urllib2.Request) : Prop :=
  urllib2.get_header (Str.capitalize "User-Agent") request = Some a.

(** What the opener and then the parser report for [request]: the
    exception of either, or the parsed session identifier. *)
Definition transport_then_parse (self : FamilySearch) (net : Net)
    (request : urllib2.Request) : result pyval :=
  match opener_open (opener self) (server net) request with
  | (inl e, _, _) => Raise e
  | (inr response, _, _) => identity_parse_session_id response
  end.

(** What a method adds to the log of issued requests all carries the
    client's agent string, and the method keeps that string. *)
Definition issues_with_agent (self : FamilySearch) (net : Net)
    (self' : FamilySearch) (net' : Net) : Prop :=
  agent self' = agent self /\
  exists issued,
    sent net' = (sent net ++ issued)%list /\
    Forall (carries_user_agent (agent self)) issued.

(** What a caller and the network can observe of a run: what it returned or
    raised, the cookie jar it left, the remote service and the requests
    sent. *)
Definition observable {A} (r : result A * FamilySearch * Net)
  : result A * CookieJar * Net :=
  (fst (fst r), opener (snd (fst r)), snd r).

(** Where a session identifier can come from: it is the one held at the
    start, or one the parser returned for some response. *)
Definition session_from (start : pyval) (self : FamilySearch) : Prop :=
  session self = start \/
  exists response, identity_parse_session_id response = inr (session self).

(** [authenticate] sends its request and ends as the opener and the parser
    decide. *)
Definition authenticate_sends (username password : pyval) (self : FamilySearch)
    (net : Net) : Prop :=
  exists request,
    sent (snd (authenticate username password self net)) = (sent net ++ [request])%list /\
    fst (fst (authenticate username password self net))
    = transport_then_parse self net request.

(** *** Unfolding lemmas *)

Lemma _request_unfold (url : string) (data : option string) self net :
  _request url data self net =
  match prepare self url data with
  | inl e => (inl e, self, net)
  | inr request => open request self net
  end.
Proof.
  unfold _request, bind, lift, attr, prepare.
  destruct (_add_json_format url) as [e | url']; [reflexivity |].
  destruct (urllib2.new url' data); reflexivity.
Qed.

Lemma session_call_unfold (url body : string) self net :
  session_call url body self net =
  match prepare self url (Some body) with
  | inl e => (inl e, self, net)
  | inr request =>
      let net' srv := mkNet srv (sent net ++ [request])%list in
      match opener_open (opener self) (server net) request with
      | (inl e, jar, srv) => (inl e, with_opener self jar, net' srv)
      | (inr response, jar, srv) =>
          match identity_parse_session_id response with
          | inl e => (inl e, with_opener self jar, net' srv)
          | inr id => (inr id, with_session (with_opener self jar) id, net' srv)
          end
      end
  end.
Proof.
  unfold session_call, bind at 1. rewrite _request_unfold.
  destruct (prepare self url (Some body)) as [e | request]; [reflexivity |].
  unfold open. cbv zeta.
  destruct (opener_open (opener self) (server net) request)
    as [[[e | response] jar] srv]; [reflexivity |].
  unfold bind, lift, set_session, attr.
  destruct (identity_parse_session_id response); reflexivity.
Qed.

Lemma __init___unfold (agent : string) (key username password session : pyval)
    (base : string) (net : Net) :
  __init__ agent key username password session base net =
  if truthy username && truthy password
  then (login username password ;; ret tt) (fresh agent key session base) net
  else (Return tt, fresh agent key session base, net).
Proof. reflexivity. Qed.

Lemma seq_ret_unfold {A} (m : M A) self net :
  (m ;; ret tt) self net =
  (match fst (fst (m self net)) with
   | inl e => Raise e
   | inr _ => Return tt
   end, snd (fst (m self net)), snd (m self net)).
Proof.
  unfold bind, ret. destruct (m self net) as [[[e | a] self'] net']; reflexivity.
Qed.

Lemma login_session_call (username password : pyval) self net :
  login username password self net =
  session_call (login_url self)
    (urlencode_dict [("username", username); ("password", password); ("key", key self)])
    self net.
Proof. reflexivity. Qed.

Lemma initialize_session_call self net :
  initialize self net =
  session_call (initialize_url self) (urlencode_dict [("key", key self)]) self net.
Proof. reflexivity. Qed.

Lemma authenticate_session_call (username password : pyval) self net :
  authenticate username password self net =
  session_call (authenticate_url self)
    (urlencode_dict [("username", username); ("password", password)]) self net.
Proof. reflexivity. Qed.

(** Case analysis on everything a [session_call] depends on. *)
Ltac session_cases :=
  rewrite session_call_unfold;
  destruct (prepare _ _ _) as [?e | ?request] eqn:?Hprep; cbv zeta;
  [| match goal with
     | |- context [opener_open ?j ?s ?r] =>
         destruct (opener_open j s r) as [[[?e | ?response] ?jar] ?srv] eqn:?Hopen
     end;
     [| destruct (identity_parse_session_id _) as [?e | ?id] eqn:?Hparse]].

Lemma session_call_all_or_nothing (url : FamilySearch -> string)
    (body : FamilySearch -> string) :
  all_or_nothing (fun self net => session_call (url self) (body self) self net).
Proof.
  intros self net.
  session_cases; cbn.
  - split; [reflexivity | left; split; reflexivity].
  - split; [reflexivity | right]. eexists; split; [reflexivity | left; exact Hopen].
  - split; [reflexivity | right]. eexists; split; [reflexivity | right].
    exists response. split; [exact Hopen | exact Hparse].
  - split; [reflexivity |]. do 2 eexists. split; [reflexivity |].
    split; [exact Hopen | exact Hparse].
Qed.

Lemma session_call_same_identity (url body : string) self net :
  same_identity self (snd (fst (session_call url body self net))).
Proof.
  session_cases; cbn; repeat split; reflexivity.
Qed.

(** *** The authentication methods *)

(** C2: each of [login], [initialize] and [authenticate], from every
    starting state, either returns the session identifier parsed from the
    response, having stored that same identifier in [self.session], or
    raises (when URL rewriting, the request or the parse raises) and
    leaves [self.session] as it was. *)
Theorem C2_authentication_all_or_nothing (username password : pyval) :
  all_or_nothing (login username password) /\
  all_or_nothing initialize /\
  all_or_nothing (authenticate username password).
Proof.
  split; [| split]; intros self net.
  - rewrite login_session_call.
    exact (session_call_all_or_nothing login_url
             (fun self => urlencode_dict
                [("username", username); ("password", password); ("key", key self)])
             self net).
  - rewrite initialize_session_call.
    exact (session_call_all_or_nothing initialize_url
             (fun self => urlencode_dict [("key", key self)]) self net).
  - rewrite authenticate_session_call.
    exact (session_call_all_or_nothing authenticate_url
             (fun _ => urlencode_dict [("username", username); ("password", password)])
             self net).
Qed.

(** C9: whether they return or raise, [login], [initialize] and
    [authenticate] leave the agent string, the developer key, the base URL
    and the three endpoint URLs of the client unchanged. *)
Theorem C9_authentication_keeps_identity (username password : pyval) self net :
  same_identity self (snd (fst (login username password self net))) /\
  same_identity self (snd (fst (initialize self net))) /\
  same_identity self (snd (fst (authenticate username password self net))).
Proof.
  rewrite login_session_call, initialize_session_call, authenticate_session_call.
  repeat split; apply session_call_same_identity.
Qed.

(** *** Construction *)

Lemma append_assoc3 (a b c : string) : (a ++ b) ++ c = a ++ (b ++ c).
Proof.
  induction a as [| x a IH]; cbn; [reflexivity | now rewrite IH].
Qed.

(** C5: the three endpoint URLs of a client constructed with base URL [B]
    are [B + "/identity/v2/login"], [B + "/identity/v2/initialize"] and
    [B + "/identity/v2/authenticate"]. *)
Theorem C5_endpoint_urls (agent : string) (key username password session : pyval)
    (B : string) (net : Net) :
  let self := snd (fst (__init__ agent key username password session B net)) in
  login_url self = B ++ "/identity/v2/login" /\
  initialize_url self = B ++ "/identity/v2/initialize" /\
  authenticate_url self = B ++ "/identity/v2/authenticate".
Proof.
  cbv zeta. rewrite __init___unfold.
  assert (Hfresh : forall self,
             same_identity (fresh agent key session B) self ->
             login_url self = B ++ "/identity/v2/login" /\
             initialize_url self = B ++ "/identity/v2/initialize" /\
             authenticate_url self = B ++ "/identity/v2/authenticate").
  { intros self (_ & _ & _ & Hl & Hi & Ha). rewrite Hl, Hi, Ha.
    unfold fresh; cbn [login_url initialize_url authenticate_url].
    rewrite !append_assoc3. repeat split; reflexivity. }
  destruct (truthy username && truthy password).
  - rewrite seq_ret_unfold, login_session_call. cbn [fst snd].
    apply Hfresh, session_call_same_identity.
  - apply Hfresh. repeat split; reflexivity.
Qed.

(** C10: when the username or the password is absent or the empty string,
    the constructor returns without calling [login]: nothing is sent, the
    remote service is untouched, and [self.session] is the [session]
    argument. *)
Theorem C10_no_login_without_credentials (agent : string)
    (key username password session : pyval) (base : string) (net : Net) :
  username = PyNone \/ username = PyStr "" \/
  password = PyNone \/ password = PyStr "" ->
  exists self,
    __init__ agent key username password session base net = (Return tt, self, net) /\
    Client.session self = session.
Proof.
  intros H. rewrite __init___unfold.
  assert (Hf : truthy username && truthy password = false).
  { destruct H as [-> | [-> | [-> | ->]]]; cbn;
      try reflexivity; apply andb_false_r. }
  rewrite Hf. eexists; split; reflexivity.
Qed.

(** C3, amended: when both the username and the password are non-empty
    strings, constructing with them leaves the same client state (session,
    cookies), the same network and the same exception, if any, as
    constructing without them and then calling [login]. *)
Theorem C3_construct_with_credentials (agent : string)
    (key username password session : pyval) (base : string) (net : Net) :
  truthy username = true -> truthy password = true ->
  same_behaviour (__init__ agent key username password session base net)
                 (construct_then_login agent key username password session base net).
Proof.
  intros Hu Hp. unfold construct_then_login. rewrite !__init___unfold.
  rewrite Hu, Hp. cbn [truthy andb]. rewrite seq_ret_unfold.
  match goal with
  | |- context [login ?u ?p ?s ?n] =>
      destruct (login u p s n) as [[[e | id] self'] net']
  end; repeat split; reflexivity.
Qed.

(** *** Dispatch *)

Lemma new_request (url : string) (data : option string) (request : urllib2.Request) :
  urllib2.new url data = inr request ->
  urllib2.data request = data /\ urllib2.headers request = [] /\
  urllib2.get_full_url request = normalized url.
Proof.
  unfold urllib2.new, normalized.
  destruct (urllib2.splittag (urllib2.unwrap url)) as [original fragment].
  destruct (urlparse.urlsplit _); intros H; inversion H; subst.
  repeat split; reflexivity.
Qed.

Lemma prepare_request self (url : string) (data : option string)
    (request : urllib2.Request) :
  prepare self url data = inr request ->
  urllib2.data request = data /\
  urllib2.headers request = [("User-agent", agent self)] /\
  exists url',
    _add_json_format url = inr url' /\ urllib2.get_full_url request = normalized url'.
Proof.
  unfold prepare.
  destruct (_add_json_format url) as [e | url']; [discriminate |].
  destruct (urllib2.new url' data) as [e | request0] eqn:Hnew; [discriminate |].
  intros H. inversion H; subst. clear H.
  destruct (new_request _ _ Hnew) as (Hd & Hh & Hu).
  unfold urllib2.add_header. cbn [urllib2.data urllib2.headers].
  rewrite Hh. repeat split; [exact Hd |].
  exists url'. split; [reflexivity |]. rewrite <- Hu. reflexivity.
Qed.

Lemma prepare_same_agent self self' (url : string) (data : option string) :
  agent self' = agent self -> prepare self' url data = prepare self url data.
Proof. intros H. unfold prepare. now rewrite H. Qed.


Lemma prepare_carries_user_agent self (url : string) (data : option string)
    (request : urllib2.Request) :
  prepare self url data = inr request -> carries_user_agent (agent self) request.
Proof.
  intros H. destruct (prepare_request _ _ _ H) as (_ & Hh & _).
  unfold carries_user_agent, urllib2.get_header. rewrite Hh.
  reflexivity.
Qed.

Lemma _request_issues (url : string) (data : option string) self net :
  issues_with_agent self net (snd (fst (_request url data self net)))
    (snd (_request url data self net)).
Proof.
  rewrite _request_unfold.
  destruct (prepare self url data) as [e | request] eqn:Hprep; cbn.
  - split; [reflexivity |]. exists []. now rewrite app_nil_r.
  - unfold open.
    destruct (opener_open (opener self) (server net) request) as [[r jar] srv]; cbn.
    split; [reflexivity |]. exists [request].
    split; [reflexivity |]. constructor; [| constructor].
    eapply prepare_carries_user_agent, Hprep.
Qed.

Lemma session_call_issues (url body : string) self net :
  issues_with_agent self net (snd (fst (session_call url body self net)))
    (snd (session_call url body self net)).
Proof.
  session_cases; cbn;
    (split; [reflexivity |]);
    try (exists []; now rewrite app_nil_r);
    (eexists; split; [reflexivity |]; constructor; [| constructor];
     eapply prepare_carries_user_agent, Hprep).
Qed.

Lemma run_call_issues (c : call) self net :
  issues_with_agent self net (fst (run_call c self net)) (snd (run_call c self net)).
Proof.
  destruct c as [u p | | u p | url data]; unfold run_call.
  - rewrite login_session_call.
    match goal with
    | |- context [session_call ?u ?b ?s ?n] =>
        pose proof (session_call_issues u b s n) as H;
        destruct (session_call u b s n) as [[r self'] net']
    end. exact H.
  - rewrite initialize_session_call.
    match goal with
    | |- context [session_call ?u ?b ?s ?n] =>
        pose proof (session_call_issues u b s n) as H;
        destruct (session_call u b s n) as [[r self'] net']
    end. exact H.
  - rewrite authenticate_session_call.
    match goal with
    | |- context [session_call ?u ?b ?s ?n] =>
        pose proof (session_call_issues u b s n) as H;
        destruct (session_call u b s n) as [[r self'] net']
    end. exact H.
  - pose proof (_request_issues url data self net) as H.
    destruct (_request url data self net) as [[r self'] net']. exact H.
Qed.

Lemma issues_with_agent_trans self net self1 net1 self2 net2 :
  issues_with_agent self net self1 net1 ->
  issues_with_agent self1 net1 self2 net2 ->
  issues_with_agent self net self2 net2.
Proof.
  intros (Ha1 & l1 & Hs1 & Hf1) (Ha2 & l2 & Hs2 & Hf2).
  split; [congruence |].
  exists (l1 ++ l2)%list. split.
  - rewrite Hs2, Hs1, app_assoc. reflexivity.
  - apply Forall_app; split; [exact Hf1 |]. rewrite <- Ha1. exact Hf2.
Qed.

Lemma run_calls_issues (cs : list call) : forall self net,
  issues_with_agent self net (fst (run_calls cs self net)) (snd (run_calls cs self net)).
Proof.
  induction cs as [| c cs IH]; intros self net; cbn [run_calls].
  - split; [reflexivity |]. exists []. now rewrite app_nil_r.
  - pose proof (run_call_issues c self net) as Hc.
    destruct (run_call c self net) as [self1 net1]. cbn [fst snd] in Hc.
    eapply issues_with_agent_trans; [exact Hc | apply IH].
Qed.

(** C7: every request dispatched by a client, during its construction or
    by any sequence of later calls, carries a User-Agent header equal to
    the agent string given to the constructor followed by a space and
    [Python-FS-Stack/0.1]. *)
Theorem C7_user_agent_header (agent : string) (key username password session : pyval)
    (base : string) (net : Net) (calls : list call) :
  let constructed := __init__ agent key username password session base net in
  let final := run_calls calls (snd (fst constructed)) (snd constructed) in
  exists issued,
    sent (snd final) = (sent net ++ issued)%list /\
    Forall (carries_user_agent (agent ++ " Python-FS-Stack/0.1")) issued.
Proof.
  cbv zeta.
  assert (Hinit : issues_with_agent (fresh agent key session base) net
                    (snd (fst (__init__ agent key username password session base net)))
                    (snd (__init__ agent key username password session base net))).
  { rewrite __init___unfold. destruct (truthy username && truthy password).
    - rewrite seq_ret_unfold, login_session_call. cbn [fst snd].
      apply session_call_issues.
    - cbn. split; [reflexivity |]. exists []. now rewrite app_nil_r. }
  pose proof (issues_with_agent_trans Hinit (run_calls_issues calls _ _)) as (_ & l & Hs & Hf).
  exists l. split; [exact Hs | exact Hf].
Qed.

(** C8, amended: whatever the stored session (in particular the one of a
    client on which [initialize] was never called), once URL rewriting and
    the [Request] constructor have accepted its endpoint URL, [authenticate]
    sends its request and returns or raises exactly what the opener and
    then the parser report for that request. *)
Theorem C8_authenticate_without_initialize (username password : pyval)
    self net (url' : string) (request0 : urllib2.Request) :
  _add_json_format (authenticate_url self) = inr url' ->
  urllib2.new url'
    (Some (urlencode_dict [("username", username); ("password", password)]))
  = inr request0 ->
  forall stored : pyval,
    let run := authenticate username password (with_session self stored) net in
    let request := urllib2.add_header "User-Agent" (agent self) request0 in
    sent (snd run) = (sent net ++ [request])%list /\
    urllib2.get_method request = "POST" /\
    fst (fst run) = transport_then_parse self net request /\
    authenticate_sends username password (with_session self stored) net.
Proof.
  intros Hurl Hnew stored. cbv zeta.
  assert (Hprep : prepare (with_session self stored) (authenticate_url self)
                    (Some (urlencode_dict [("username", username); ("password", password)]))
                  = inr (urllib2.add_header "User-Agent" (agent self) request0)).
  { unfold prepare. now rewrite Hurl, Hnew. }
  destruct (new_request _ _ Hnew) as (Hd & _).
  assert (Hrun :
    sent (snd (authenticate username password (with_session self stored) net))
    = (sent net ++ [urllib2.add_header "User-Agent" (agent self) request0])%list /\
    fst (fst (authenticate username password (with_session self stored) net))
    = transport_then_parse self net
        (urllib2.add_header "User-Agent" (agent self) request0)).
  { rewrite authenticate_session_call, session_call_unfold.
    cbn [authenticate_url with_session]. rewrite Hprep. cbv zeta.
    unfold transport_then_parse. cbn [opener with_session].
    destruct (opener_open (opener self) (server net) _) as [[[e | response] jar] srv].
    - split; reflexivity.
    - destruct (identity_parse_session_id response); split; reflexivity. }
  destruct Hrun as [Hsent Hres].
  repeat split; [exact Hsent | | exact Hres |].
  - unfold urllib2.get_method, urllib2.add_header. cbn [urllib2.data].
    now rewrite Hd.
  - eexists. split; [exact Hsent | exact Hres].
Qed.

(** *** Form payloads *)

Lemma urlencode_dict_fields (d : list (string * pyval)) :
  exists fields,
    Permutation fields (map (fun kv => (fst kv, str_ (snd kv))) d) /\
    urlencode_dict d = urllib.urlencode fields.
Proof.
  eexists; split; [| reflexivity]. apply Permutation_map, dict_items_perm.
Qed.


(** *** One request per call *)

Lemma session_call_sent (url body : string) self net :
  sent (snd (session_call url body self net)) =
  match prepare self url (Some body) with
  | inl _ => sent net
  | inr request => (sent net ++ [request])%list
  end.
Proof. session_cases; reflexivity. Qed.

Lemma session_call_result (url body : string) self net :
  fst (fst (session_call url body self net)) =
  match prepare self url (Some body) with
  | inl e => inl e
  | inr request => transport_then_parse self net request
  end.
Proof.
  unfold transport_then_parse. session_cases; reflexivity.
Qed.

Lemma session_call_session (url body : string) self net :
  match fst (fst (session_call url body self net)) with
  | inr id => session (snd (fst (session_call url body self net))) = id
  | inl _ => session (snd (fst (session_call url body self net))) = session self
  end.
Proof. session_cases; reflexivity. Qed.

(** X5: [login] sends at most one request, and exactly one unless URL
    rewriting or the [Request] constructor raises: a POST whose URL is the
    rewritten login URL as [Request] keeps it, whose only header is the user
    agent and whose body is the form encoding of exactly the username, the
    password and the developer key; the credentials appear nowhere but in
    the body. *)
Theorem X5_login_request (username password : pyval) self net :
  exists fields,
    Permutation fields
      [("username", str_ username); ("password", str_ password);
       ("key", str_ (key self))] /\
    match prepare self (login_url self) (Some (urllib.urlencode fields)) with
    | inl _ => sent (snd (login username password self net)) = sent net
    | inr request =>
        sent (snd (login username password self net)) = (sent net ++ [request])%list /\
        (exists url',
           _add_json_format (login_url self) = inr url' /\
           urllib2.get_full_url request = normalized url') /\
        urllib2.headers request = [("User-agent", agent self)] /\
        urllib2.get_method request = "POST" /\
        urllib2.data request = Some (urllib.urlencode fields)
    end.
Proof.
  rewrite login_session_call, session_call_sent.
  destruct (urlencode_dict_fields
              [("username", username); ("password", password); ("key", key self)])
    as (fields & Hperm & Henc).
  exists fields. split; [exact Hperm |]. rewrite Henc.
  destruct (prepare self (login_url self) (Some (urllib.urlencode fields)))
    as [e | request] eqn:Hprep; [reflexivity |].
  destruct (prepare_request _ _ _ Hprep) as (Hd & Hh & Hu).
  unfold urllib2.get_method. rewrite Hd.
  repeat split; [exact Hu | exact Hh].
Qed.

(** X6: [initialize] and [authenticate] each send their one POST, unless URL
    rewriting or the [Request] constructor raises, to their own endpoint
    URL, rewritten by [_add_json_format] and kept by [Request], with the
    user agent as the only header. *)
Theorem X6_own_endpoint (username password : pyval) self net :
  match
    prepare self (initialize_url self) (Some (urlencode_dict [("key", key self)]))
  with
  | inl _ => sent (snd (initialize self net)) = sent net
  | inr request =>
      sent (snd (initialize self net)) = (sent net ++ [request])%list /\
      (exists url',
         _add_json_format (initialize_url self) = inr url' /\
         urllib2.get_full_url request = normalized url') /\
      urllib2.headers request = [("User-agent", agent self)]
  end /\
  match
    prepare self (authenticate_url self)
      (Some (urlencode_dict [("username", username); ("password", password)]))
  with
  | inl _ => sent (snd (authenticate username password self net)) = sent net
  | inr request =>
      sent (snd (authenticate username password self net))
        = (sent net ++ [request])%list /\
      (exists url',
         _add_json_format (authenticate_url self) = inr url' /\
         urllib2.get_full_url request = normalized url') /\
      urllib2.headers request = [("User-agent", agent self)]
  end.
Proof.
  rewrite initialize_session_call, authenticate_session_call, !session_call_sent.
  split.
  - destruct (prepare self (initialize_url self) _) as [e | request] eqn:Hprep;
      [reflexivity |].
    destruct (prepare_request _ _ _ Hprep) as (_ & Hh & Hu).
    repeat split; [exact Hu | exact Hh].
  - destruct (prepare self (authenticate_url self) _) as [e | request] eqn:Hprep;
      [reflexivity |].
    destruct (prepare_request _ _ _ Hprep) as (_ & Hh & Hu).
    repeat split; [exact Hu | exact Hh].
Qed.

(** *** The stored session is never sent *)

Lemma session_call_ignores_session (url body : string) self (stored : pyval) net :
  observable (session_call url body (with_session self stored) net)
  = observable (session_call url body self net).
Proof.
  unfold observable. rewrite !session_call_unfold.
  change (prepare (with_session self stored) url (Some body))
    with (prepare self url (Some body)).
  destruct (prepare self url (Some body)) as [e | request]; [reflexivity |].
  cbv zeta.
  change (opener (with_session self stored)) with (opener self).
  destruct (opener_open (opener self) (server net) request)
    as [[[e | response] jar] srv]; [reflexivity |].
  destruct (identity_parse_session_id response); reflexivity.
Qed.

(** X7: no method reads [self.session]: what [login], [initialize],
    [authenticate] and [_request] send, return or raise, and the cookies and
    remote state they leave, are the same whatever session is stored. *)
Theorem X7_session_never_read (username password : pyval) (url : string)
    (data : option string) self (stored : pyval) net :
  observable (login username password (with_session self stored) net)
    = observable (login username password self net) /\
  observable (initialize (with_session self stored) net)
    = observable (initialize self net) /\
  observable (authenticate username password (with_session self stored) net)
    = observable (authenticate username password self net) /\
  observable (_request url data (with_session self stored) net)
    = observable (_request url data self net).
Proof.
  rewrite !login_session_call, !initialize_session_call, !authenticate_session_call.
  repeat split; try apply session_call_ignores_session.
  unfold observable. rewrite !_request_unfold.
  change (prepare (with_session self stored) url data) with (prepare self url data).
  destruct (prepare self url data) as [e | request]; [reflexivity |].
  unfold open.
  change (opener (with_session self stored)) with (opener self).
  destruct (opener_open (opener self) (server net) request)
    as [[r jar] srv]; reflexivity.
Qed.

(** *** Dispatch keeps the client *)

Lemma _request_keeps self (url : string) (data : option string) net :
  session (snd (fst (_request url data self net))) = session self /\
  same_identity self (snd (fst (_request url data self net))).
Proof.
  rewrite _request_unfold.
  destruct (prepare self url data) as [e | request].
  - repeat split; reflexivity.
  - unfold open.
    destruct (opener_open (opener self) (server net) request)
      as [[r jar] srv]; repeat split; reflexivity.
Qed.

(** X8: [_request] changes nothing of the client but the cookie jar of its
    opener: the stored session, the agent string, the key, the base URL and
    the endpoint URLs are as before, whether it returns or raises. *)
Theorem X8_request_keeps_client (url : string) (data : option string) self net :
  exists jar,
    snd (fst (_request url data self net)) = with_opener self jar.
Proof.
  rewrite _request_unfold.
  destruct (prepare self url data) as [e | request].
  - exists (opener self). destruct self; reflexivity.
  - unfold open.
    destruct (opener_open (opener self) (server net) request)
      as [[r jar] srv]. exists jar. reflexivity.
Qed.

(** *** Sequences of calls *)

Lemma run_call_same_identity (c : call) self net :
  same_identity self (fst (run_call c self net)).
Proof.
  destruct c as [u p | | u p | url data]; unfold run_call.
  - rewrite login_session_call.
    match goal with
    | |- context [session_call ?u ?b ?s ?n] =>
        pose proof (session_call_same_identity u b s n) as H;
        destruct (session_call u b s n) as [[r self'] net']
    end. exact H.
  - rewrite initialize_session_call.
    match goal with
    | |- context [session_call ?u ?b ?s ?n] =>
        pose proof (session_call_same_identity u b s n) as H;
        destruct (session_call u b s n) as [[r self'] net']
    end. exact H.
  - rewrite authenticate_session_call.
    match goal with
    | |- context [session_call ?u ?b ?s ?n] =>
        pose proof (session_call_same_identity u b s n) as H;
        destruct (session_call u b s n) as [[r self'] net']
    end. exact H.
  - pose proof (_request_keeps self url data net) as [_ H].
    destruct (_request url data self net) as [[r self'] net']. exact H.
Qed.

Lemma same_identity_trans self self1 self2 :
  same_identity self self1 -> same_identity self1 self2 -> same_identity self self2.
Proof.
  unfold same_identity.
  intros (A1 & A2 & A3 & A4 & A5 & A6) (B1 & B2 & B3 & B4 & B5 & B6).
  repeat split; congruence.
Qed.

(** X9: whatever sequence of [login], [initialize], [authenticate] and
    [_request] calls is made, and whichever of them raise, the agent string,
    the developer key, the base URL and the three endpoint URLs stay those
    of the client at the start. *)
Theorem X9_calls_keep_identity (cs : list call) : forall self net,
  same_identity self (fst (run_calls cs self net)).
Proof.
  induction cs as [| c cs IH]; intros self net; cbn [run_calls].
  - repeat split; reflexivity.
  - pose proof (run_call_same_identity c self net) as Hc.
    destruct (run_call c self net) as [self1 net1]. cbn [fst] in Hc.
    eapply same_identity_trans; [exact Hc | apply IH].
Qed.

Lemma session_call_session_from (url body : string) self net :
  session_from (session self) (snd (fst (session_call url body self net))).
Proof.
  unfold session_from. session_cases; cbn; try (left; reflexivity).
  right. exists response. exact Hparse.
Qed.

Lemma run_call_session_from (c : call) self net :
  session_from (session self) (fst (run_call c self net)).
Proof.
  destruct c as [u p | | u p | url data]; unfold run_call.
  - rewrite login_session_call.
    match goal with
    | |- context [session_call ?u ?b ?s ?n] =>
        pose proof (session_call_session_from u b s n) as H;
        destruct (session_call u b s n) as [[r self'] net']
    end. exact H.
  - rewrite initialize_session_call.
    match goal with
    | |- context [session_call ?u ?b ?s ?n] =>
        pose proof (session_call_session_from u b s n) as H;
        destruct (session_call u b s n) as [[r self'] net']
    end. exact H.
  - rewrite authenticate_session_call.
    match goal with
    | |- context [session_call ?u ?b ?s ?n] =>
        pose proof (session_call_session_from u b s n) as H;
        destruct (session_call u b s n) as [[r self'] net']
    end. exact H.
  - pose proof (_request_keeps self url data net) as [H _].
    destruct (_request url data self net) as [[r self'] net']. left. exact H.
Qed.

(** X10: after any sequence of calls the stored session is either the one
    the client started with or an identifier the parser returned for some
    response: nothing else is ever stored. *)
Theorem X10_session_provenance (cs : list call) : forall self net,
  session_from (session self) (fst (run_calls cs self net)).
Proof.
  induction cs as [| c cs IH]; intros self net; cbn [run_calls].
  - left. reflexivity.
  - pose proof (run_call_session_from c self net) as Hc.
    destruct (run_call c self net) as [self1 net1]. cbn [fst] in Hc.
    specialize (IH self1 net1). unfold session_from in *.
    destruct IH as [IH | IH]; [| right; exact IH].
    rewrite IH. exact Hc.
Qed.

Lemma session_call_single_attempt (url body : string) self net :
  exists issued,
    sent (snd (session_call url body self net)) = (sent net ++ issued)%list /\
    List.length issued <= 1.
Proof.
  rewrite session_call_sent.
  destruct (prepare self url (Some body)) as [e | request].
  - exists []. rewrite app_nil_r. split; [reflexivity | cbn; lia].
  - exists [request]. split; [reflexivity | cbn; lia].
Qed.

Lemma run_call_single_attempt (c : call) self net :
  exists issued,
    sent (snd (run_call c self net)) = (sent net ++ issued)%list /\
    List.length issued <= 1.
Proof.
  destruct c as [u p | | u p | url data]; unfold run_call.
  - pose proof (session_call_single_attempt (login_url self)
                  (urlencode_dict [("username", u); ("password", p); ("key", key self)])
                  self net) as H.
    rewrite <- login_session_call in H.
    destruct (login u p self net) as [[r self'] net']. exact H.
  - pose proof (session_call_single_attempt (initialize_url self)
                  (urlencode_dict [("key", key self)]) self net) as H.
    rewrite <- initialize_session_call in H.
    destruct (initialize self net) as [[r self'] net']. exact H.
  - pose proof (session_call_single_attempt (authenticate_url self)
                  (urlencode_dict [("username", u); ("password", p)]) self net) as H.
    rewrite <- authenticate_session_call in H.
    destruct (authenticate u p self net) as [[r self'] net']. exact H.
  - rewrite _request_unfold.
    destruct (prepare self url data) as [e | request].
    + exists []. rewrite app_nil_r. split; [reflexivity | cbn; lia].
    + unfold open.
      destruct (opener_open (opener self) (server net) request) as [[r jar] srv].
      eexists. split; [reflexivity | cbn; lia].
Qed.

(** X11: a call is a single attempt: any sequence of calls only appends to
    the requests sent, and appends at most one request per call, whatever
    fails. *)
Theorem X11_single_attempt (cs : list call) : forall self net,
  exists issued,
    sent (snd (run_calls cs self net)) = (sent net ++ issued)%list /\
    List.length issued <= List.length cs.
Proof.
  induction cs as [| c cs IH]; intros self net; cbn [run_calls].
  - exists []. rewrite app_nil_r. split; [reflexivity | cbn; lia].
  - destruct (run_call_single_attempt c self net) as (l1 & H1 & Hl1).
    destruct (run_call c self net) as [self1 net1]. cbn [snd] in H1.
    destruct (IH self1 net1) as (l2 & H2 & Hl2).
    exists (l1 ++ l2)%list. split.
    + rewrite H2, H1, app_assoc. reflexivity.
    + rewrite length_app. cbn [List.length]. lia.
Qed.

(** *** Calls in a row *)

(** X12: two dispatches in a row share the opener: when URL rewriting and
    the [Request] constructor accept both URLs, the second request is opened
    with the cookie jar and against the remote state that the first one
    left, even when the first one raised, and the client ends with the jar
    the second one left. *)
Theorem X12_cookies_persist (url1 url2 : string) (data1 data2 : option string)
    self net (request1 request2 : urllib2.Request) :
  prepare self url1 data1 = inr request1 ->
  prepare self url2 data2 = inr request2 ->
  let '(r1, jar1, srv1) := opener_open (opener self) (server net) request1 in
  let '(r2, jar2, srv2) := opener_open jar1 srv1 request2 in
  run_calls [Dispatch url1 data1; Dispatch url2 data2] self net
  = (with_opener self jar2, mkNet srv2 (sent net ++ [request1; request2])%list).
Proof.
  intros H1 H2. cbn [run_calls run_call].
  rewrite _request_unfold, H1. unfold open at 1.
  destruct (opener_open (opener self) (server net) request1) as [[r1 jar1] srv1].
  rewrite _request_unfold.
  change (prepare (with_opener self jar1) url2 data2) with (prepare self url2 data2).
  rewrite H2. unfold open.
  cbn [opener with_opener server].
  destruct (opener_open jar1 srv1 request2) as [[r2 jar2] srv2].
  cbn [sent]. rewrite <- app_assoc. reflexivity.
Qed.

(** X13: [initialize] followed by [authenticate], when URL rewriting and the
    [Request] constructor accept both endpoint URLs: the two POSTs are sent
    in that order, the second with the cookies the first one left; when
    [authenticate] returns, the stored session is the identifier of its own
    response, whatever [initialize] had stored; when it raises, the session
    is as [initialize] left it. *)
Theorem X13_initialize_then_authenticate (username password : pyval) self net
    (first_post posted : urllib2.Request) :
  prepare self (initialize_url self) (Some (urlencode_dict [("key", key self)]))
  = inr first_post ->
  prepare self (authenticate_url self)
    (Some (urlencode_dict [("username", username); ("password", password)]))
  = inr posted ->
  let first := initialize self net in
  let self1 := snd (fst first) in
  let second := authenticate username password self1 (snd first) in
  sent (snd second) = (sent net ++ [first_post; posted])%list /\
  fst (fst second) = transport_then_parse self1 (snd first) posted /\
  match fst (fst second) with
  | inr id => session (snd (fst second)) = id
  | inl _ => session (snd (fst second)) = session self1
  end.
Proof.
  intros Hi Ha. cbv zeta.
  pose proof (session_call_same_identity (initialize_url self)
                (urlencode_dict [("key", key self)]) self net)
    as (Hagent & _ & _ & _ & _ & Hurl).
  pose proof (session_call_sent (initialize_url self)
                (urlencode_dict [("key", key self)]) self net) as Hsent.
  rewrite Hi in Hsent. rewrite <- initialize_session_call in *.
  destruct (initialize self net) as [[r1 self1] net1]. cbn [fst snd] in *.
  assert (Hprep : prepare self1 (authenticate_url self)
                    (Some (urlencode_dict [("username", username); ("password", password)]))
                  = inr posted).
  { erewrite prepare_same_agent by exact Hagent. exact Ha. }
  rewrite authenticate_session_call.
  rewrite session_call_sent, session_call_result, Hurl, Hprep, Hsent.
  rewrite <- app_assoc. repeat split.
  pose proof (session_call_session (authenticate_url self1)
                (urlencode_dict [("username", username); ("password", password)])
                self1 net1) as Hs.
  rewrite session_call_result, Hurl, Hprep in Hs. exact Hs.
Qed.

(** X14: a constructor given a non-empty username and password logs in with
    a fresh, empty cookie jar: when it returns, the stored session is the
    identifier parsed from the response to its one request, not the
    [session] argument; when it raises, the object still holds the
    [session] argument. *)
Theorem X14_constructor_logs_in (agent : string)
    (key username password session : pyval) (base : string) (net : Net) :
  truthy username = true -> truthy password = true ->
  match __init__ agent key username password session base net with
  | (inr _, self, net') =>
      exists request response,
        sent net' = (sent net ++ [request])%list /\
        opener_open empty_jar (server net) request
          = (inr response, opener self, server net') /\
        identity_parse_session_id response = inr (Client.session self)
  | (inl _, self, _) => Client.session self = session
  end.
Proof.
  intros Hu Hp. rewrite __init___unfold, Hu, Hp. cbn [andb].
  rewrite seq_ret_unfold, login_session_call.
  pose proof (session_call_all_or_nothing login_url
                (fun self => urlencode_dict
                   [("username", username); ("password", password); ("key", Client.key self)])
                (fresh agent key session base) net) as H.
  cbv beta in H.
  match goal with
  | |- context [session_call ?u ?b ?s ?n] =>
      destruct (session_call u b s n) as [[[e | id] self'] net']
  end; cbn [fst snd].
  - destruct H as [H _]. exact H.
  - destruct H as (Hs & request & response & H1 & H2 & H3).
    exists request, response. rewrite Hs. repeat split; assumption.
Qed.

End Client.

(** ** Strings: splitting and joining *)

Lemma append_nil_r (s : string) : s ++ "" = s.
Proof. induction s as [| c s IH]; cbn; [reflexivity | now rewrite IH]. Qed.

Lemma split_not_nil (c : ascii) (s : string) : Str.split c s <> [].
Proof.
  destruct s as [| a s]; cbn; [discriminate |].
  destruct (Ascii.eqb a c); [discriminate |].
  destruct (Str.split c s); discriminate.
Qed.

Lemma split_cons_other (c a : ascii) (s : string) :
  Ascii.eqb a c = false ->
  exists h t, Str.split c s = h :: t /\ Str.split c (String a s) = String a h :: t.
Proof.
  intros Hac. cbn. rewrite Hac.
  destruct (Str.split c s) as [| h t] eqn:Hs.
  - now apply split_not_nil in Hs.
  - exists h, t. split; reflexivity.
Qed.

Lemma split_without (c : ascii) (s : string) :
  Str.contains c s = false -> Str.split c s = [s].
Proof.
  induction s as [| a s IH]; cbn; [reflexivity |].
  intros H. apply orb_false_iff in H as [Hac Hs].
  rewrite Hac, (IH Hs). reflexivity.
Qed.

Lemma split_app_sep (c : ascii) (a b : string) :
  Str.contains c a = false ->
  Str.split c (a ++ String c b) = a :: Str.split c b.
Proof.
  induction a as [| x a IH]; cbn.
  - intros _. now rewrite Ascii.eqb_refl.
  - intros H. apply orb_false_iff in H as [Hxc Ha].
    rewrite Hxc, (IH Ha). reflexivity.
Qed.

Lemma split_once_app_sep (c : ascii) (a b : string) :
  Str.contains c a = false ->
  Str.split_once c (a ++ String c b) = Some (a, b).
Proof.
  induction a as [| x a IH]; cbn.
  - intros _. now rewrite Ascii.eqb_refl.
  - intros H. apply orb_false_iff in H as [Hxc Ha].
    rewrite Hxc, (IH Ha). reflexivity.
Qed.

Lemma contains_app (c : ascii) (a b : string) :
  Str.contains c (a ++ b) = Str.contains c a || Str.contains c b.
Proof.
  induction a as [| x a IH]; cbn; [reflexivity |].
  now rewrite IH, orb_assoc.
Qed.

Lemma replace_app (x y : ascii) (a b : string) :
  Str.replace x y (a ++ b) = Str.replace x y a ++ Str.replace x y b.
Proof.
  induction a as [| c a IH]; cbn; [reflexivity | now rewrite IH].
Qed.

Lemma join_empty_cons (x : string) (l : list string) :
  Str.join "" (x :: l) = x ++ Str.join "" l.
Proof.
  destruct l as [| y l]; cbn [Str.join]; [now rewrite append_nil_r | reflexivity].
Qed.

Lemma join_cons_cons (sep x y : string) (l : list string) :
  Str.join sep (x :: y :: l) = x ++ sep ++ Str.join sep (y :: l).
Proof. reflexivity. Qed.

Lemma split_join (c : ascii) (l : list string) :
  l <> [] ->
  Forall (fun f => Str.contains c f = false) l ->
  Str.split c (Str.join (String c "") l) = l.
Proof.
  induction l as [| x l IH]; [congruence |].
  intros _ Hall. inversion Hall as [| ? ? Hx Hl]; subst.
  destruct l as [| y l].
  - cbn [Str.join]. now apply split_without.
  - rewrite join_cons_cons. cbn [append].
    rewrite split_app_sep by exact Hx. f_equal.
    apply IH; [discriminate | exact Hl].
Qed.

(** ** Quoting and unquoting *)

Lemma plus_quoter_decodes_all (c : ascii) : urllib.plus_quoter_decodes c = true.
Proof.
  destruct c as [[] [] [] [] [] [] [] []]; vm_compute; reflexivity.
Qed.

Lemma plus_quoter_clean_all (c : ascii) : urllib.plus_quoter_clean c = true.
Proof.
  destruct c as [[] [] [] [] [] [] [] []]; vm_compute; reflexivity.
Qed.

Lemma unquote_cons_plain (c : ascii) (s : string) :
  Ascii.eqb c "%" = false ->
  urllib.unquote (String c s) = String c (urllib.unquote s).
Proof.
  intros Hc. unfold urllib.unquote.
  destruct (@split_cons_other "%" c s Hc) as (h & t & Hs & Hcs).
  rewrite Hcs, Hs, !join_empty_cons. reflexivity.
Qed.

Lemma unquote_cons_escape (a b : ascii) (x y : nat) (s : string) :
  Ascii.eqb a "%" = false -> Ascii.eqb b "%" = false ->
  urllib.hexval a = Some x -> urllib.hexval b = Some y ->
  urllib.unquote (String "%" (String a (String b s)))
  = String (ascii_of_nat (16 * x + y)) (urllib.unquote s).
Proof.
  intros Ha Hb Hx Hy. unfold urllib.unquote.
  destruct (@split_cons_other "%" b s Hb) as (h & t & Hs & Hbs).
  cbn [Str.split]. rewrite Ascii.eqb_refl, Ha.
  cbn [Str.split] in Hbs. rewrite Hbs, Hs.
  cbn [map]. rewrite !join_empty_cons.
  unfold urllib.unquote_item. rewrite Hx, Hy. reflexivity.
Qed.

Lemma unquote_plus_plus_quoter (c : ascii) (r : string) :
  urllib.unquote_plus (urllib.plus_quoter c ++ r) = String c (urllib.unquote_plus r).
Proof.
  pose proof (plus_quoter_decodes_all c) as H.
  unfold urllib.plus_quoter_decodes in H. unfold urllib.unquote_plus.
  destruct (urllib.plus_quoter c) as [| d [| a [| b [| ? ?]]]]; try discriminate H.
  - apply andb_true_iff in H as [Hd Hp]. apply Ascii.eqb_eq in Hd.
    apply negb_true_iff in Hp.
    cbn [append Str.replace].
    destruct (Ascii.eqb d "+") eqn:Hplus.
    + subst c. now rewrite unquote_cons_plain.
    + subst c. now rewrite unquote_cons_plain.
  - repeat (apply andb_true_iff in H as [H ?]).
    destruct (urllib.hexval a) as [x |] eqn:Hx; [| discriminate].
    destruct (urllib.hexval b) as [y |] eqn:Hy; [| discriminate].
    repeat match goal with
           | H : negb _ = true |- _ => apply negb_true_iff in H
           | H : Ascii.eqb _ _ = true |- _ => apply Ascii.eqb_eq in H
           end.
    subst d. cbn [append Str.replace].
    match goal with Ha : Ascii.eqb a "+" = false |- _ => rewrite Ha end.
    match goal with Hb : Ascii.eqb b "+" = false |- _ => rewrite Hb end.
    cbn [Ascii.eqb Bool.eqb].
    rewrite (@unquote_cons_escape a b x y) by assumption.
    congruence.
Qed.

Lemma quoter_space_decided (c : ascii) :
  Str.replace " " "+" (urllib.quoter " " c) = urllib.plus_quoter c.
Proof.
  destruct c as [[] [] [] [] [] [] [] []]; vm_compute; reflexivity.
Qed.

Lemma quote_plus_concat_map (s : string) :
  urllib.quote_plus s = Str.concat_map urllib.plus_quoter s.
Proof.
  unfold urllib.quote_plus, urllib.quote.
  destruct (Str.contains " " s) eqn:Hsp.
  - clear Hsp. induction s as [| c s IH]; cbn [Str.concat_map]; [reflexivity |].
    now rewrite replace_app, IH, quoter_space_decided.
  - induction s as [| c s IH]; cbn [Str.concat_map]; [reflexivity |].
    cbn [Str.contains] in Hsp. apply orb_false_iff in Hsp as [Hc Hs].
    rewrite (IH Hs). unfold urllib.plus_quoter. now rewrite Hc.
Qed.

(** Decoding undoes [quote_plus], whatever the bytes of [s]. *)
Lemma unquote_plus_quote_plus (s : string) :
  urllib.unquote_plus (urllib.quote_plus s) = s.
Proof.
  rewrite quote_plus_concat_map.
  induction s as [| c s IH]; cbn [Str.concat_map]; [reflexivity |].
  now rewrite unquote_plus_plus_quoter, IH.
Qed.

Lemma quote_plus_clean (s : string) (sep : ascii) :
  In sep urllib.separators -> Str.contains sep (urllib.quote_plus s) = false.
Proof.
  intros Hsep. rewrite quote_plus_concat_map.
  induction s as [| c s IH]; cbn [Str.concat_map]; [reflexivity |].
  pose proof (plus_quoter_clean_all c) as H. unfold urllib.plus_quoter_clean in H.
  apply andb_true_iff in H as [H _].
  rewrite forallb_forall in H. specialize (H sep Hsep). apply negb_true_iff in H.
  now rewrite contains_app, H, IH.
Qed.

Lemma quote_plus_not_empty (s : string) :
  s <> "" -> String.length (urllib.quote_plus s) <> 0.
Proof.
  rewrite quote_plus_concat_map.
  destruct s as [| c s]; [congruence |]. intros _. cbn [Str.concat_map].
  pose proof (plus_quoter_clean_all c) as H. unfold urllib.plus_quoter_clean in H.
  apply andb_true_iff in H as [_ H]. apply negb_true_iff in H.
  destruct (urllib.plus_quoter c); [discriminate H | cbn; discriminate].
Qed.

(** ** Parsing what [urlencode] wrote *)

(** The field [urlencode] writes for one pair. *)
Lemma urlencode_fields (l : list (string * string)) :
  urllib.urlencode l
  = Str.join "&" (map (fun kv => urllib.quote_plus (fst kv) ++ "=" ++ urllib.quote_plus (snd kv)) l).
Proof. reflexivity. Qed.

Lemma parse_field_encoded (k v : string) :
  v <> "" ->
  urlparse.parse_field (urllib.quote_plus k ++ "=" ++ urllib.quote_plus v) = Some (k, v).
Proof.
  intros Hv. unfold urlparse.parse_field.
  assert (Hk : Str.contains "=" (urllib.quote_plus k) = false)
    by (apply quote_plus_clean; cbn; tauto).
  replace (String.eqb (urllib.quote_plus k ++ "=" ++ urllib.quote_plus v) "") with false.
  2:{ symmetry. apply String.eqb_neq.
      destruct (urllib.quote_plus k); cbn; discriminate. }
  cbn [append]. rewrite split_once_app_sep by exact Hk.
  apply quote_plus_not_empty, Nat.eqb_neq in Hv. rewrite Hv. cbn [negb].
  fold (urllib.unquote_plus (urllib.quote_plus k)).
  fold (urllib.unquote_plus (urllib.quote_plus v)).
  now rewrite !unquote_plus_quote_plus.
Qed.

Lemma encoded_field_clean (k v : string) (c : ascii) :
  In c urllib.separators -> c <> "="%char ->
  Str.contains c (urllib.quote_plus k ++ "=" ++ urllib.quote_plus v) = false.
Proof.
  intros Hc Hne. rewrite !contains_app, !quote_plus_clean by exact Hc.
  cbn [Str.contains orb].
  destruct (Ascii.eqb "=" c) eqn:E; [| reflexivity].
  apply Ascii.eqb_eq in E. congruence.
Qed.

Lemma parse_encoded_fields (l : list (string * string)) :
  Forall (fun kv => snd kv <> "") l ->
  flat_map (fun name_value =>
              match urlparse.parse_field name_value with
              | Some nv => [nv]
              | None => []
              end)
    (flat_map (Str.split ";")
       (map (fun kv => urllib.quote_plus (fst kv) ++ "=" ++ urllib.quote_plus (snd kv)) l))
  = l.
Proof.
  induction 1 as [| [k v] l Hv Hl IH]; [reflexivity |].
  cbn [map flat_map fst snd] in *.
  rewrite split_without by (apply encoded_field_clean; [cbn; tauto | discriminate]).
  cbn [app flat_map].
  rewrite parse_field_encoded by exact Hv.
  cbn [app]. f_equal. exact IH.
Qed.

(** [parse_qsl] reads back the pairs [urlencode] wrote, provided no value is
    empty. *)
Lemma parse_qsl_urlencode (l : list (string * string)) :
  Forall (fun kv => snd kv <> "") l ->
  urlparse.parse_qsl (urllib.urlencode l) = l.
Proof.
  intros Hl. destruct l as [| kv0 l0] eqn:El; [reflexivity |]. rewrite <- El in *.
  unfold urlparse.parse_qsl. rewrite urlencode_fields.
  change "&" with (String "&"%char "") at 1.
  rewrite split_join.
  - apply parse_encoded_fields, Hl.
  - subst l. discriminate.
  - apply Forall_forall. intros f Hin. apply in_map_iff in Hin as ([k v] & <- & _).
    apply encoded_field_clean; [cbn; tauto | discriminate].
Qed.

(** ** What [parse_qsl] yields *)

Lemma unquote_not_empty (s : string) : s <> "" -> urllib.unquote s <> "".
Proof.
  destruct s as [| c s]; [congruence |]. intros _.
  destruct (Ascii.eqb c "%") eqn:Hc.
  - apply Ascii.eqb_eq in Hc. subst c. unfold urllib.unquote.
    cbn [Str.split]. rewrite Ascii.eqb_refl.
    destruct (Str.split "%" s) as [| h t] eqn:Hs; [now apply split_not_nil in Hs |].
    cbn [map]. rewrite !join_empty_cons. cbn [append].
    unfold urllib.unquote_item.
    destruct h as [| a [| b rest]]; try discriminate.
    destruct (urllib.hexval a), (urllib.hexval b); discriminate.
  - rewrite unquote_cons_plain by exact Hc. discriminate.
Qed.

Lemma parse_field_value_not_empty (name_value k v : string) :
  urlparse.parse_field name_value = Some (k, v) -> v <> "".
Proof.
  unfold urlparse.parse_field.
  destruct (String.eqb name_value ""); [discriminate |].
  destruct (Str.split_once "=" name_value) as [[n raw] |]; [| discriminate].
  destruct raw as [| c raw]; cbn [String.length Nat.eqb negb]; [discriminate |].
  intros H. injection H as _ <-.
  apply unquote_not_empty. cbn [Str.replace]. discriminate.
Qed.

(** No pair [parse_qsl] returns has an empty value. *)
Lemma parse_qsl_values_not_empty (qs : string) :
  Forall (fun kv => snd kv <> "") (urlparse.parse_qsl qs).
Proof.
  apply Forall_forall. intros [k v] Hin. unfold urlparse.parse_qsl in Hin.
  apply in_flat_map in Hin as (name_value & _ & Hin).
  destruct (urlparse.parse_field name_value) as [[k' v'] |] eqn:Hf; [| contradiction].
  destruct Hin as [Heq | []]. injection Heq as -> ->.
  cbn [snd]. eapply parse_field_value_not_empty, Hf.
Qed.

(** ** FamilySearch._add_json_format *)

(** Whenever [urlsplit] accepts the URL, [_add_json_format] returns the URL
    that [urlunsplit] assembles from the same scheme, network location, path
    and fragment and a new query; parsed again, the new query gives the
    pairs [parse_qsl] found in the original one, in their order, followed by
    [(dataFormat, application/json)]. *)
Lemma add_json_format_parsed_pairs (url : string) (parts : urlparse.SplitResult) :
  urlparse.urlsplit url = inr parts ->
  exists query,
    _add_json_format url
    = inr (urlparse.urlunsplit (urlparse.scheme parts) (urlparse.netloc parts)
             (urlparse.path parts) query (urlparse.fragment parts)) /\
    urlparse.parse_qsl query
    = (urlparse.parse_qsl (urlparse.query parts) ++ [("dataFormat", "application/json")])%list.
Proof.
  intros Hsplit. unfold _add_json_format. rewrite Hsplit.
  eexists; split; [reflexivity |].
  apply parse_qsl_urlencode, Forall_app. split.
  - apply parse_qsl_values_not_empty.
  - constructor; [cbn; discriminate | constructor].
Qed.

(** [_add_json_format] raises exactly when [urlsplit] does. *)
Lemma add_json_format_raises (url : string) (e : exn) :
  _add_json_format url = inl e <-> urlparse.urlsplit url = inl e.
Proof.
  unfold _add_json_format.
  destruct (urlparse.urlsplit url) as [e' | parts]; unfold Raise, Return;
    split; intros H; inversion H; reflexivity.
Qed.

(** ** URLs that [urlsplit] accepts *)

Lemma contains_slice_from (c : ascii) (s : string) : forall n,
  Str.contains c (Str.slice_from n s) = true -> Str.contains c s = true.
Proof.
  induction s as [| a s IH]; intros [| n]; cbn; try (intros H; exact H).
  intros H. apply IH in H. rewrite H. apply orb_true_r.
Qed.

Lemma contains_slice_to (c : ascii) (s : string) : forall n,
  Str.contains c (Str.slice_to n s) = true -> Str.contains c s = true.
Proof.
  induction s as [| a s IH]; intros [| n]; cbn; try discriminate.
  intros H. apply orb_true_iff in H as [H | H].
  - rewrite H. reflexivity.
  - apply IH in H. rewrite H. apply orb_true_r.
Qed.

Lemma split_rest_accepts (scheme url : string) :
  Str.contains "[" url = false -> Str.contains "]" url = false ->
  exists parts, urlparse.split_rest scheme url = inr parts.
Proof.
  intros Hl Hr. unfold urlparse.split_rest.
  destruct (String.eqb (Str.slice_to 2 url) "//").
  - unfold urlparse._splitnetloc.
    match goal with
    | |- context [Str.slice 2 ?d url] => generalize d; intros delim
    end.
    assert (Hn : forall c, Str.contains c url = false ->
                           Str.contains c (Str.slice 2 delim url) = false).
    { intros c Hc. destruct (Str.contains c (Str.slice 2 delim url)) eqn:E; [| reflexivity].
      unfold Str.slice in E. apply contains_slice_to, contains_slice_from in E.
      congruence. }
    rewrite (Hn _ Hl), (Hn _ Hr). cbn [andb orb negb].
    destruct (Str.split_once "#" (Str.slice_from delim url)) as [[u f] |];
      [destruct (Str.split_once "?" u) as [[u' q] |]
      | destruct (Str.split_once "?" (Str.slice_from delim url)) as [[u' q] |]];
      eexists; reflexivity.
  - cbn [negb].
    destruct (Str.split_once "#" url) as [[u f] |];
      [destruct (Str.split_once "?" u) as [[u' q] |]
      | destruct (Str.split_once "?" url) as [[u' q] |]];
      eexists; reflexivity.
Qed.

(** [urlsplit] raises only on unbalanced brackets: a URL without ['['] and
    [']'] is always accepted. *)
Lemma urlsplit_accepts (url : string) :
  Str.contains "[" url = false -> Str.contains "]" url = false ->
  exists parts, urlparse.urlsplit url = inr parts.
Proof.
  intros Hl Hr. unfold urlparse.urlsplit.
  assert (Hrest : forall n scheme, exists parts,
             urlparse.split_rest scheme (Str.slice_from n url) = inr parts).
  { intros n scheme. apply split_rest_accepts.
    - destruct (Str.contains "[" (Str.slice_from n url)) eqn:E; [| reflexivity].
      apply contains_slice_from in E. congruence.
    - destruct (Str.contains "]" (Str.slice_from n url)) eqn:E; [| reflexivity].
      apply contains_slice_from in E. congruence. }
  destruct (Str.find ":" url) as [[| i] |]; try (now apply split_rest_accepts).
  destruct (String.eqb (Str.slice_to (S i) url) "http"); [apply Hrest |].
  destruct (Str.all urlparse.scheme_char (Str.slice_to (S i) url));
    [| now apply split_rest_accepts].
  destruct (String.eqb (Str.slice_from (S i + 1) url) ""
            || negb (Str.all Str.is_digit (Str.slice_from (S i + 1) url)));
    [apply Hrest | now apply split_rest_accepts].
Qed.

Lemma add_json_format_accepts (url : string) :
  Str.contains "[" url = false -> Str.contains "]" url = false ->
  exists url', _add_json_format url = inr url'.
Proof.
  intros Hl Hr. destruct (urlsplit_accepts url Hl Hr) as (parts & Hparts).
  destruct (add_json_format_parsed_pairs url Hparts) as (query & Hq & _).
  eexists. exact Hq.
Qed.

(** The endpoint URLs of a client whose base URL has no bracket are
    accepted. *)
Lemma endpoint_url_accepted (base operation : string) :
  Str.contains "[" base = false -> Str.contains "]" base = false ->
  Str.contains "[" operation = false -> Str.contains "]" operation = false ->
  exists url', _add_json_format ((base ++ "/identity/v2/") ++ operation) = inr url'.
Proof.
  intros Hl Hr Hol Hor. apply add_json_format_accepts.
  - now rewrite !contains_app, Hl, Hol.
  - now rewrite !contains_app, Hr, Hor.
Qed.

(** ** The network location of a URL *)

Lemma find_min_cons (a : ascii) (s : string) :
  fold_left
    (fun delim c =>
       match Str.find c (String a s) with
       | Some wdelim => Nat.min delim wdelim
       | None => delim
       end) ["/"%char; "?"%char; "#"%char] (String.length (String a s))
  = if netloc_delimiter a then 0
    else S (fold_left
              (fun delim c =>
                 match Str.find c s with
                 | Some wdelim => Nat.min delim wdelim
                 | None => delim
                 end) ["/"%char; "?"%char; "#"%char] (String.length s)).
Proof.
  unfold netloc_delimiter. cbn [fold_left Str.find String.length].
  destruct (Ascii.eqb a "/"), (Ascii.eqb a "?"), (Ascii.eqb a "#");
    destruct (Str.find "/" s), (Str.find "?" s), (Str.find "#" s);
    cbn [option_map orb]; lia.
Qed.

Lemma find_min_netloc_end (s : string) :
  fold_left
    (fun delim c =>
       match Str.find c s with
       | Some wdelim => Nat.min delim wdelim
       | None => delim
       end) ["/"%char; "?"%char; "#"%char] (String.length s)
  = netloc_end s.
Proof.
  induction s as [| a s IH]; [reflexivity |].
  rewrite find_min_cons. cbn [netloc_end]. now rewrite IH.
Qed.

Lemma find_from_2 (c x y : ascii) (s : string) :
  Str.find_from c 2 (String x (String y s)) = option_map (Nat.add 2) (Str.find c s).
Proof. reflexivity. Qed.

Lemma find_min_shift (x y : ascii) (s : string) (cs : list ascii) : forall d,
  fold_left
    (fun delim c =>
       match Str.find_from c 2 (String x (String y s)) with
       | Some wdelim => Nat.min delim wdelim
       | None => delim
       end) cs (2 + d)
  = 2 + fold_left
          (fun delim c =>
             match Str.find c s with
             | Some wdelim => Nat.min delim wdelim
             | None => delim
             end) cs d.
Proof.
  induction cs as [| c cs IH]; intros d; [reflexivity |].
  cbn [fold_left]. rewrite find_from_2.
  destruct (Str.find c s) as [w |]; cbn [option_map].
  - replace (Nat.min (2 + d) (2 + w)) with (2 + Nat.min d w) by lia. apply IH.
  - apply IH.
Qed.

(** [_splitnetloc] on a URL that starts with two characters [x], [y]: the
    rest is cut where its first delimiter stands. *)
Lemma _splitnetloc_2 (x y : ascii) (s : string) :
  urlparse._splitnetloc (String x (String y s)) 2
  = (Str.slice_to (netloc_end s) s, Str.slice_from (netloc_end s) s).
Proof.
  unfold urlparse._splitnetloc.
  change (String.length (String x (String y s))) with (2 + String.length s).
  rewrite find_min_shift, find_min_netloc_end.
  unfold Str.slice. replace (2 + netloc_end s - 2) with (netloc_end s) by lia.
  reflexivity.
Qed.

Lemma slice_to_from (s : string) : forall n,
  Str.slice_to n s ++ Str.slice_from n s = s.
Proof.
  induction s as [| a s IH]; intros [| n]; cbn; try reflexivity.
  now rewrite IH.
Qed.

Lemma netloc_prefix_clean (s : string) (c : ascii) :
  netloc_delimiter c = true ->
  Str.contains c (Str.slice_to (netloc_end s) s) = false.
Proof.
  intros Hc. induction s as [| a s IH]; cbn; [reflexivity |].
  destruct (netloc_delimiter a) eqn:Ha; cbn; [reflexivity |].
  rewrite IH, orb_false_r.
  destruct (Ascii.eqb a c) eqn:E; [| reflexivity].
  apply Ascii.eqb_eq in E. congruence.
Qed.

Lemma netloc_suffix_starts (s : string) :
  starts_with_delimiter (Str.slice_from (netloc_end s) s) = true.
Proof.
  induction s as [| a s IH]; cbn; [reflexivity |].
  destruct (netloc_delimiter a) eqn:Ha; cbn; [exact Ha | exact IH].
Qed.

Lemma netloc_end_app (n r : string) :
  (forall c, netloc_delimiter c = true -> Str.contains c n = false) ->
  starts_with_delimiter r = true ->
  netloc_end (n ++ r) = String.length n.
Proof.
  intros Hn Hr. induction n as [| a n IH]; cbn.
  - destruct r as [| c r]; cbn in *; [reflexivity | now rewrite Hr].
  - destruct (netloc_delimiter a) eqn:Ha.
    + specialize (Hn a Ha). cbn in Hn. now rewrite Ascii.eqb_refl in Hn.
    + f_equal. apply IH. intros c Hc. specialize (Hn c Hc). cbn in Hn.
      now apply orb_false_iff in Hn.
Qed.

Lemma slice_to_app (a b : string) : Str.slice_to (String.length a) (a ++ b) = a.
Proof. induction a as [| x a IH]; cbn; [now destruct b | now rewrite IH]. Qed.

Lemma slice_from_app (a b : string) : Str.slice_from (String.length a) (a ++ b) = b.
Proof. induction a as [| x a IH]; cbn; [reflexivity | exact IH]. Qed.

Lemma _splitnetloc_app (n r : string) :
  (forall c, netloc_delimiter c = true -> Str.contains c n = false) ->
  starts_with_delimiter r = true ->
  urlparse._splitnetloc ("//" ++ n ++ r) 2 = (n, r).
Proof.
  intros Hn Hr. cbn [append]. rewrite _splitnetloc_2, netloc_end_app by assumption.
  now rewrite slice_to_app, slice_from_app.
Qed.

(** ** Cutting at a separator *)

Lemma before_cons (c a : ascii) (s : string) :
  before c (String a s) = if Ascii.eqb a c then "" else String a (before c s).
Proof.
  unfold before. cbn [Str.split_once].
  destruct (Ascii.eqb a c); [reflexivity |].
  destruct (Str.split_once c s) as [[u v] |]; reflexivity.
Qed.

Lemma after_cons (c a : ascii) (s : string) :
  after c (String a s) = if Ascii.eqb a c then s else after c s.
Proof.
  unfold after. cbn [Str.split_once].
  destruct (Ascii.eqb a c); [reflexivity |].
  destruct (Str.split_once c s) as [[u v] |]; reflexivity.
Qed.

Lemma before_clean (c : ascii) (s : string) : Str.contains c (before c s) = false.
Proof.
  induction s as [| a s IH]; [reflexivity |].
  rewrite before_cons. destruct (Ascii.eqb a c) eqn:E; [reflexivity |].
  cbn [Str.contains]. now rewrite E, IH.
Qed.

Lemma before_keeps_clean (c d : ascii) (s : string) :
  Str.contains d s = false -> Str.contains d (before c s) = false.
Proof.
  induction s as [| a s IH]; [reflexivity |].
  rewrite before_cons. cbn [Str.contains]. intros H.
  apply orb_false_iff in H as [Ha Hs].
  destruct (Ascii.eqb a c); [reflexivity |].
  cbn [Str.contains]. now rewrite Ha, IH.
Qed.

Lemma after_keeps_clean (c d : ascii) (s : string) :
  Str.contains d s = false -> Str.contains d (after c s) = false.
Proof.
  induction s as [| a s IH]; [reflexivity |].
  rewrite after_cons. cbn [Str.contains]. intros H.
  apply orb_false_iff in H as [Ha Hs].
  destruct (Ascii.eqb a c); [exact Hs | now apply IH].
Qed.

Lemma before_without (c : ascii) (s : string) :
  Str.contains c s = false -> before c s = s /\ after c s = "".
Proof.
  induction s as [| a s IH]; [split; reflexivity |].
  cbn [Str.contains]. intros H. apply orb_false_iff in H as [Ha Hs].
  rewrite before_cons, after_cons, Ha.
  destruct (IH Hs) as [-> ->]. split; reflexivity.
Qed.

Lemma before_after_app (c : ascii) (a b : string) :
  Str.contains c a = false ->
  before c (a ++ String c b) = a /\ after c (a ++ String c b) = b.
Proof.
  intros Ha. unfold before, after. now rewrite split_once_app_sep.
Qed.

(** [split_rest] in terms of cuts. *)
Lemma split_rest_cuts (scheme url : string) :
  urlparse.split_rest scheme url =
  let '(netloc, rest) :=
    if String.eqb (Str.slice_to 2 url) "//" then urlparse._splitnetloc url 2
    else ("", url) in
  if brackets_ok netloc
  then inr (urlparse.mkSplitResult scheme netloc
              (before "?" (before "#" rest)) (after "?" (before "#" rest))
              (after "#" rest))
  else inl (ValueError "Invalid IPv6 URL").
Proof.
  unfold urlparse.split_rest, before, after, brackets_ok.
  destruct (String.eqb (Str.slice_to 2 url) "//").
  - destruct (urlparse._splitnetloc url 2) as [netloc rest].
    destruct (Str.contains "[" netloc), (Str.contains "]" netloc);
      cbn [negb andb orb]; try reflexivity.
    all: destruct (Str.split_once "#" rest) as [[u f] |];
      [destruct (Str.split_once "?" u) as [[u' q] |]
      | destruct (Str.split_once "?" rest) as [[u' q] |]]; reflexivity.
  - cbn.
    destruct (Str.split_once "#" url) as [[u f] |];
      [destruct (Str.split_once "?" u) as [[u' q] |]
      | destruct (Str.split_once "?" url) as [[u' q] |]]; reflexivity.
Qed.

(** ** What [urlsplit] guarantees *)

Lemma path_rooted_cuts (r : string) :
  starts_with_delimiter r = true -> path_rooted (before "?" (before "#" r)) = true.
Proof.
  destruct r as [| a r]; [reflexivity |]. cbn [starts_with_delimiter].
  unfold netloc_delimiter. intros H. rewrite before_cons.
  destruct (Ascii.eqb a "#"); [reflexivity |].
  rewrite before_cons. destruct (Ascii.eqb a "?"); [reflexivity |].
  cbn [path_rooted]. now rewrite !orb_false_r in H.
Qed.

Lemma slice_to_2_slashes (url : string) :
  String.eqb (Str.slice_to 2 url) "//" = true ->
  exists s, url = String "/" (String "/" s).
Proof.
  destruct url as [| x [| y s]]; cbn [Str.slice_to]; intros H.
  - discriminate H.
  - cbn in H. destruct (Ascii.eqb x "/"); discriminate H.
  - apply String.eqb_eq in H. injection H as -> ->. now exists s.
Qed.

Lemma split_rest_shape (sch url : string) (p : urlparse.SplitResult) :
  urlparse.split_rest sch url = inr p ->
  urlparse.netloc p <> "" ->
  urlparse.scheme p = sch /\
  (forall c, netloc_delimiter c = true -> Str.contains c (urlparse.netloc p) = false) /\
  brackets_ok (urlparse.netloc p) = true /\
  path_rooted (urlparse.path p) = true /\
  Str.contains "?" (urlparse.path p) = false /\
  Str.contains "#" (urlparse.path p) = false.
Proof.
  rewrite split_rest_cuts.
  destruct (String.eqb (Str.slice_to 2 url) "//") eqn:E.
  - apply slice_to_2_slashes in E as (s & ->). rewrite _splitnetloc_2.
    destruct (brackets_ok (Str.slice_to (netloc_end s) s)) eqn:Hb; [| discriminate].
    intros H _. injection H as <-. cbn.
    repeat split.
    + intros c Hc. now apply netloc_prefix_clean.
    + exact Hb.
    + apply path_rooted_cuts, netloc_suffix_starts.
    + apply before_clean.
    + apply before_keeps_clean, before_clean.
  - cbn. intros H Hn. injection H as <-. cbn in Hn. congruence.
Qed.

Lemma lower_char_idempotent (c : ascii) :
  Str.lower_char (Str.lower_char c) = Str.lower_char c.
Proof. destruct c as [[] [] [] [] [] [] [] []]; reflexivity. Qed.

Lemma lower_char_scheme_char (c : ascii) :
  urlparse.scheme_char c = true -> urlparse.scheme_char (Str.lower_char c) = true.
Proof. destruct c as [[] [] [] [] [] [] [] []]; vm_compute; intros H; exact H. Qed.

Lemma lower_scheme_shape (s : string) :
  s <> "" -> Str.all urlparse.scheme_char s = true -> scheme_shape (Str.lower s).
Proof.
  intros Hs Hall. right. split; [destruct s; [congruence | discriminate] |].
  clear Hs. induction s as [| c s IH]; [split; reflexivity |].
  cbn [Str.all Str.lower] in *. apply andb_true_iff in Hall as [Hc Hall].
  destruct (IH Hall) as [IH1 IH2].
  rewrite lower_char_scheme_char, IH1, lower_char_idempotent, IH2 by exact Hc.
  split; reflexivity.
Qed.

Lemma find_some_not_empty (c : ascii) (s : string) (i j : nat) :
  Str.find c s = Some j -> Str.slice_to (S i) s <> "".
Proof. destruct s; cbn; [discriminate | intros _; discriminate]. Qed.

(** The parts [urlsplit] returns for a URL with a network location have the
    shape [split_shape]. *)
Lemma urlsplit_shape (url : string) (p : urlparse.SplitResult) :
  urlparse.urlsplit url = inr p -> urlparse.netloc p <> "" -> split_shape p.
Proof.
  unfold urlparse.urlsplit. intros H Hn.
  assert (Hrest : forall sch u,
             urlparse.split_rest sch u = inr p -> scheme_shape sch -> split_shape p).
  { intros sch u Hr Hsch.
    destruct (split_rest_shape _ _ Hr Hn) as (Hs & H1 & H2 & H3 & H4 & H5).
    constructor; try assumption. now rewrite Hs. }
  destruct (Str.find ":" url) as [[| i] |] eqn:Hfind;
    try (eapply Hrest; [exact H | now left]).
  destruct (String.eqb (Str.slice_to (S i) url) "http") eqn:Ehttp.
  - apply String.eqb_eq in Ehttp. rewrite Ehttp in H.
    eapply Hrest; [exact H |]. right. repeat split; discriminate || reflexivity.
  - destruct (Str.all urlparse.scheme_char (Str.slice_to (S i) url)) eqn:Eall;
      [| eapply Hrest; [exact H | now left]].
    destruct (String.eqb (Str.slice_from (S i + 1) url) ""
              || negb (Str.all Str.is_digit (Str.slice_from (S i + 1) url)));
      [| eapply Hrest; [exact H | now left]].
    eapply Hrest; [exact H |].
    apply lower_scheme_shape; [eapply find_some_not_empty, Hfind | exact Eall].
Qed.

(** ** Splitting what [urlunsplit] assembled *)

Lemma split_rest_assembled (sch n path q f : string) :
  (forall c, netloc_delimiter c = true -> Str.contains c n = false) ->
  brackets_ok n = true ->
  path_rooted path = true ->
  Str.contains "?" path = false -> Str.contains "#" path = false ->
  Str.contains "#" q = false ->
  urlparse.split_rest sch ("//" ++ n ++ path ++ "?" ++ q ++ fragment_suffix f)
  = inr (urlparse.mkSplitResult sch n path q f).
Proof.
  intros Hn Hb Hroot Hpq Hpf Hq. rewrite split_rest_cuts.
  change (String.eqb (Str.slice_to 2 ("//" ++ n ++ path ++ "?" ++ q ++ fragment_suffix f)) "//")
    with true. cbv iota.
  rewrite _splitnetloc_app; [| exact Hn |].
  2:{ destruct path as [| c path]; [reflexivity |]. cbn in Hroot |- *.
      unfold netloc_delimiter. now rewrite Hroot. }
  rewrite Hb. unfold fragment_suffix.
  destruct (String.eqb f "") eqn:Ef.
  - apply String.eqb_eq in Ef. subst f. rewrite append_nil_r.
    destruct (@before_without "#" (path ++ "?" ++ q)) as [-> ->].
    { now rewrite contains_app, Hpf; cbn; rewrite Hq. }
    cbn [append].
    destruct (@before_after_app "?" path q Hpq) as [-> ->]. reflexivity.
  - replace (path ++ "?" ++ q ++ "#" ++ f) with ((path ++ "?" ++ q) ++ String "#" f)
      by (now rewrite !append_assoc3).
    destruct (@before_after_app "#" (path ++ "?" ++ q) f) as [-> ->].
    { now rewrite contains_app, Hpf; cbn; rewrite Hq. }
    cbn [append].
    destruct (@before_after_app "?" path q Hpq) as [-> ->]. reflexivity.
Qed.

Lemma find_app_sep (c : ascii) (a b : string) :
  Str.contains c a = false -> Str.find c (a ++ String c b) = Some (String.length a).
Proof.
  induction a as [| x a IH]; cbn.
  - intros _. now rewrite Ascii.eqb_refl.
  - intros H. apply orb_false_iff in H as [Hx Ha]. now rewrite Hx, (IH Ha).
Qed.

Lemma scheme_chars_no_colon (s : string) :
  Str.all urlparse.scheme_char s = true -> Str.contains ":" s = false.
Proof.
  induction s as [| c s IH]; cbn; [reflexivity |].
  intros H. apply andb_true_iff in H as [Hc Hs]. rewrite (IH Hs), orb_false_r.
  destruct (Ascii.eqb c ":") eqn:E; [| reflexivity].
  apply Ascii.eqb_eq in E. subst c. discriminate Hc.
Qed.

(** [urlsplit] of [scheme:rest] when the scheme has the shape of a scheme
    and [rest] starts with two slashes. *)
Lemma urlsplit_scheme_rest (sch rest : string) :
  scheme_shape sch ->
  urlparse.urlsplit ((if String.eqb sch "" then "" else sch ++ ":") ++ "//" ++ rest)
  = urlparse.split_rest sch ("//" ++ rest).
Proof.
  intros [-> | (Hne & Hall & Hlow)].
  - cbn [String.eqb append]. unfold urlparse.urlsplit.
    destruct (Str.find ":" (String "/" (String "/" rest))) as [[| i] |]; reflexivity.
  - replace (String.eqb sch "") with false
      by (symmetry; now apply String.eqb_neq).
    rewrite append_assoc3. cbn [append]. unfold urlparse.urlsplit.
    rewrite find_app_sep by (now apply scheme_chars_no_colon).
    destruct sch as [| c sch]; [congruence |].
    cbn [String.length].
    change (S (String.length sch)) with (String.length (String c sch)).
    rewrite slice_to_app.
    replace (String.length (String c sch) + 1)
      with (String.length (String c sch ++ ":")).
    2:{ clear. generalize (String c sch). intros s.
        induction s as [| x s IH]; cbn; [reflexivity | now rewrite IH]. }
    replace (String c sch ++ String ":" (String "/" (String "/" rest)))
      with ((String c sch ++ ":") ++ String "/" (String "/" rest))
      by (now rewrite append_assoc3).
    rewrite slice_from_app, Hlow, Hall.
    destruct (String.eqb (String c sch) "http"); reflexivity.
Qed.

(** Splitting the URL [urlunsplit] assembles from parts of the shape
    [urlsplit] guarantees, with a network location and a non-empty query
    without ['#'], gives the parts back. *)
Lemma urlsplit_urlunsplit (p : urlparse.SplitResult) (q : string) :
  split_shape p -> urlparse.netloc p <> "" ->
  q <> "" -> Str.contains "#" q = false ->
  urlparse.urlsplit
    (urlparse.urlunsplit (urlparse.scheme p) (urlparse.netloc p) (urlparse.path p) q
       (urlparse.fragment p))
  = inr (urlparse.mkSplitResult (urlparse.scheme p) (urlparse.netloc p)
           (urlparse.path p) q (urlparse.fragment p)).
Proof.
  intros [Hsch Hn Hb Hroot Hpq Hpf] Hnet Hq Hqf.
  destruct p as [sch n path q0 f]. cbn [urlparse.scheme urlparse.netloc urlparse.path
    urlparse.fragment] in *.
  rewrite <- (@split_rest_assembled sch n path q f) by assumption.
  rewrite <- urlsplit_scheme_rest by exact Hsch. f_equal.
  unfold urlparse.urlunsplit, fragment_suffix.
  replace (String.eqb n "") with false by (symmetry; now apply String.eqb_neq).
  replace (String.eqb q "") with false by (symmetry; now apply String.eqb_neq).
  cbn [negb orb andb].
  replace (negb (String.eqb path "") && negb (String.eqb (Str.slice_to 1 path) "/"))
    with false.
  2:{ destruct path as [| c [| d path]]; [reflexivity | |];
        cbn in Hroot |- *; rewrite Hroot; reflexivity. }
  destruct (String.eqb sch ""), (String.eqb f ""); cbn [negb append];
    repeat (rewrite ?append_assoc3, ?append_nil_r; cbn [append]); reflexivity.
Qed.

(** ** The URL [_add_json_format] returns, split again *)

Lemma contains_join (c : ascii) (sep : string) (l : list string) :
  Str.contains c sep = false ->
  Forall (fun f => Str.contains c f = false) l ->
  Str.contains c (Str.join sep l) = false.
Proof.
  intros Hsep. induction 1 as [| x l Hx Hl IH]; [reflexivity |].
  destruct l as [| y l]; [exact Hx |].
  rewrite join_cons_cons, !contains_app, Hx, Hsep, IH. reflexivity.
Qed.

Lemma urlencode_no_fragment (l : list (string * string)) :
  Str.contains "#" (urllib.urlencode l) = false.
Proof.
  rewrite urlencode_fields. apply contains_join; [reflexivity |].
  apply Forall_forall. intros f Hin. apply in_map_iff in Hin as ([k v] & <- & _).
  apply encoded_field_clean; [cbn; tauto | discriminate].
Qed.

Lemma urlencode_not_empty (l : list (string * string)) :
  l <> [] -> urllib.urlencode l <> "".
Proof.
  destruct l as [| [k v] l]; [congruence |]. intros _.
  assert (H : Str.contains "=" (urllib.urlencode ((k, v) :: l)) = true).
  { rewrite urlencode_fields. cbn [map fst snd].
    destruct (map _ l) as [| y fields].
    - cbn [Str.join]. rewrite contains_app. cbn. apply orb_true_r.
    - rewrite join_cons_cons, !contains_app. cbn.
      rewrite orb_true_r. reflexivity. }
  intros E. rewrite E in H. discriminate H.
Qed.

(** X1: for every URL with a network location that [urlsplit] accepts,
    [_add_json_format] returns a URL that splits into the same scheme,
    network location, path and fragment, and a query which parses to the
    pairs [parse_qsl] found in the original query, in their order, followed
    by [(dataFormat, application/json)]. *)
Theorem add_json_format_components (url : string) (parts : urlparse.SplitResult) :
  urlparse.urlsplit url = inr parts ->
  urlparse.netloc parts <> "" ->
  exists url' query,
    _add_json_format url = inr url' /\
    urlparse.urlsplit url'
    = inr (urlparse.mkSplitResult (urlparse.scheme parts) (urlparse.netloc parts)
             (urlparse.path parts) query (urlparse.fragment parts)) /\
    urlparse.parse_qsl query
    = (urlparse.parse_qsl (urlparse.query parts) ++ [("dataFormat", "application/json")])%list.
Proof.
  intros Hsplit Hnet.
  pose proof (urlsplit_shape url Hsplit Hnet) as Hshape.
  unfold _add_json_format. rewrite Hsplit.
  do 2 eexists. split; [reflexivity |]. split.
  - apply urlsplit_urlunsplit; [exact Hshape | exact Hnet | |].
    + apply urlencode_not_empty. intros E. now apply app_eq_nil in E as [_ E].
    + apply urlencode_no_fragment.
  - apply parse_qsl_urlencode, Forall_app. split.
    + apply parse_qsl_values_not_empty.
    + constructor; [cbn; discriminate | constructor].
Qed.

(** ** Rewriting twice, and what can be raised *)

Lemma add_json_format_resplit (url : string) (parts : urlparse.SplitResult) :
  urlparse.urlsplit url = inr parts ->
  urlparse.netloc parts <> "" ->
  let query :=
    urllib.urlencode
      (urlparse.parse_qsl (urlparse.query parts) ++ [("dataFormat", "application/json")])%list in
  let again :=
    urlparse.mkSplitResult (urlparse.scheme parts) (urlparse.netloc parts)
      (urlparse.path parts) query (urlparse.fragment parts) in
  exists url',
    _add_json_format url = inr url' /\
    urlparse.urlsplit url' = inr again /\
    urlparse.parse_qsl query
    = (urlparse.parse_qsl (urlparse.query parts) ++ [("dataFormat", "application/json")])%list.
Proof.
  intros Hsplit Hnet. cbv zeta.
  pose proof (urlsplit_shape url Hsplit Hnet) as Hshape.
  unfold _add_json_format. rewrite Hsplit.
  eexists. split; [reflexivity |]. split.
  - apply urlsplit_urlunsplit; [exact Hshape | exact Hnet | |].
    + apply urlencode_not_empty. intros E. now apply app_eq_nil in E as [_ E].
    + apply urlencode_no_fragment.
  - apply parse_qsl_urlencode, Forall_app. split.
    + apply parse_qsl_values_not_empty.
    + constructor; [cbn; discriminate | constructor].
Qed.

(** X3: [_add_json_format] never replaces or merges a [dataFormat] pair:
    applied twice to a URL with a network location, it returns a URL with
    the same scheme, network location, path and fragment whose query parses
    to the original pairs followed by two [(dataFormat, application/json)]
    pairs. *)
Theorem X3_add_json_format_twice (url : string) (parts : urlparse.SplitResult) :
  urlparse.urlsplit url = inr parts ->
  urlparse.netloc parts <> "" ->
  exists url1 url2 query,
    _add_json_format url = inr url1 /\
    _add_json_format url1 = inr url2 /\
    urlparse.urlsplit url2
    = inr (urlparse.mkSplitResult (urlparse.scheme parts) (urlparse.netloc parts)
             (urlparse.path parts) query (urlparse.fragment parts)) /\
    urlparse.parse_qsl query
    = (urlparse.parse_qsl (urlparse.query parts)
       ++ [("dataFormat", "application/json"); ("dataFormat", "application/json")])%list.
Proof.
  intros Hsplit Hnet.
  destruct (add_json_format_resplit url Hsplit Hnet) as (url1 & H1 & Hs1 & Hq1).
  destruct (add_json_format_resplit url1 Hs1 Hnet) as (url2 & H2 & Hs2 & Hq2).
  cbn [urlparse.scheme urlparse.netloc urlparse.path urlparse.query urlparse.fragment]
    in Hs2, Hq2.
  exists url1, url2. eexists. repeat split; [exact H1 | exact H2 | exact Hs2 |].
  rewrite Hq2, Hq1, <- app_assoc. reflexivity.
Qed.

Lemma split_rest_raises (scheme url : string) (e : exn) :
  urlparse.split_rest scheme url = inl e -> e = ValueError "Invalid IPv6 URL".
Proof.
  rewrite split_rest_cuts.
  destruct (String.eqb (Str.slice_to 2 url) "//");
    [destruct (urlparse._splitnetloc url 2) as [netloc rest] |];
    match goal with
    | |- context [brackets_ok ?n] => destruct (brackets_ok n)
    end; intros H; inversion H; reflexivity.
Qed.

Lemma urlsplit_raises (url : string) (e : exn) :
  urlparse.urlsplit url = inl e -> e = ValueError "Invalid IPv6 URL".
Proof.
  unfold urlparse.urlsplit.
  destruct (Str.find ":" url) as [[| i] |]; try apply split_rest_raises.
  destruct (String.eqb (Str.slice_to (S i) url) "http"); [apply split_rest_raises |].
  destruct (Str.all urlparse.scheme_char (Str.slice_to (S i) url));
    [| apply split_rest_raises].
  destruct (String.eqb (Str.slice_from (S i + 1) url) ""
            || negb (Str.all Str.is_digit (Str.slice_from (S i + 1) url)));
    apply split_rest_raises.
Qed.

(** X2: [_add_json_format] either returns a URL, or raises
    [ValueError('Invalid IPv6 URL')], and the latter only for a URL that
    holds a square bracket: on a URL without one it always returns. *)
Theorem X2_add_json_format_raises_only_on_brackets (url : string) :
  (exists url', _add_json_format url = inr url') \/
  (_add_json_format url = inl (ValueError "Invalid IPv6 URL") /\
   Str.contains "[" url || Str.contains "]" url = true).
Proof.
  destruct (_add_json_format url) as [e | url'] eqn:E; [right | left; now exists url'].
  pose proof E as Hsplit. apply add_json_format_raises, urlsplit_raises in Hsplit.
  subst e. split; [reflexivity |].
  destruct (Str.contains "[" url) eqn:Hl; [reflexivity |].
  destruct (Str.contains "]" url) eqn:Hr; [reflexivity |].
  destruct (add_json_format_accepts url Hl Hr) as (url' & H). congruence.
Qed.

(** X4: the form body [urlencode] builds from a dictionary of credentials
    decodes losslessly: [parse_qsl] reads back exactly the entries of
    [d.items()], names and [str] values byte for byte whatever characters
    they hold, provided no value is empty. *)
Theorem X4_form_body_decodes
    (dict_items : list (string * pyval) -> list (string * pyval))
    (d : list (string * pyval)) :
  (forall d, Permutation (dict_items d) d) ->
  Forall (fun kv => str_ (snd kv) <> "") d ->
  exists fields,
    Permutation fields (map (fun kv => (fst kv, str_ (snd kv))) d) /\
    urlparse.parse_qsl (urlencode_dict dict_items d) = fields.
Proof.
  intros Hperm Hd.
  exists (map (fun kv => (fst kv, str_ (snd kv))) (dict_items d)). split.
  - apply Permutation_map, Hperm.
  - unfold urlencode_dict. apply parse_qsl_urlencode.
    apply Forall_map. cbn [snd].
    eapply Permutation_Forall; [apply Permutation_sym, Hperm | exact Hd].
Qed.

(** ** URLs without square brackets are never rejected *)

Lemma bracket_free_char_all (a : ascii) : bracket_free_char a = true.
Proof. destruct a as [[] [] [] [] [] [] [] []]; vm_compute; reflexivity. Qed.

Lemma is_bracket_cases (c : ascii) : is_bracket c = true -> c = "["%char \/ c = "]"%char.
Proof.
  unfold is_bracket. intros H. apply orb_true_iff in H as [H | H];
    apply Ascii.eqb_eq in H; auto.
Qed.

Lemma clean_slice_to (c : ascii) (s : string) (n : nat) :
  Str.contains c s = false -> Str.contains c (Str.slice_to n s) = false.
Proof.
  intros H. destruct (Str.contains c (Str.slice_to n s)) eqn:E; [| reflexivity].
  apply contains_slice_to in E. congruence.
Qed.

Lemma clean_slice_from (c : ascii) (s : string) (n : nat) :
  Str.contains c s = false -> Str.contains c (Str.slice_from n s) = false.
Proof.
  intros H. destruct (Str.contains c (Str.slice_from n s)) eqn:E; [| reflexivity].
  apply contains_slice_from in E. congruence.
Qed.

Lemma clean_lower (c : ascii) (s : string) :
  is_bracket c = true -> Str.contains c s = false -> Str.contains c (Str.lower s) = false.
Proof.
  intros Hc. induction s as [| a s IH]; cbn; [reflexivity |].
  intros H. apply orb_false_iff in H as [Ha Hs]. rewrite (IH Hs), orb_false_r.
  pose proof (bracket_free_char_all a) as Hb. unfold bracket_free_char in Hb.
  repeat (apply andb_true_iff in Hb as [Hb ?]).
  destruct (is_bracket_cases _ Hc) as [-> | ->];
    match goal with
    | H : Bool.eqb (Ascii.eqb (Str.lower_char a) ?b) _ = true |- Ascii.eqb _ ?b = false =>
        apply Bool.eqb_prop in H; rewrite H; exact Ha
    end.
Qed.

Lemma clean_quote_plus (c : ascii) (s : string) :
  is_bracket c = true -> Str.contains c (urllib.quote_plus s) = false.
Proof.
  intros Hc. rewrite quote_plus_concat_map.
  induction s as [| a s IH]; cbn [Str.concat_map]; [reflexivity |].
  pose proof (bracket_free_char_all a) as Hb. unfold bracket_free_char in Hb.
  repeat (apply andb_true_iff in Hb as [Hb ?]).
  rewrite contains_app, IH, orb_false_r.
  destruct (is_bracket_cases _ Hc) as [-> | ->]; now apply negb_true_iff.
Qed.

Lemma clean_urlencode (c : ascii) (l : list (string * string)) :
  is_bracket c = true -> Str.contains c (urllib.urlencode l) = false.
Proof.
  intros Hc. rewrite urlencode_fields. apply contains_join.
  - destruct (is_bracket_cases _ Hc) as [-> | ->]; reflexivity.
  - apply Forall_forall. intros f Hin. apply in_map_iff in Hin as ([k v] & <- & _).
    rewrite !contains_app, !clean_quote_plus by exact Hc.
    destruct (is_bracket_cases _ Hc) as [-> | ->]; reflexivity.
Qed.

Lemma clean_split_rest (c : ascii) (sch url : string) (p : urlparse.SplitResult) :
  Str.contains c sch = false -> Str.contains c url = false ->
  urlparse.split_rest sch url = inr p ->
  Str.contains c (urlparse.scheme p) = false /\
  Str.contains c (urlparse.netloc p) = false /\
  Str.contains c (urlparse.path p) = false /\
  Str.contains c (urlparse.fragment p) = false.
Proof.
  intros Hsch Hurl. rewrite split_rest_cuts.
  destruct (String.eqb (Str.slice_to 2 url) "//").
  - unfold urlparse._splitnetloc.
    match goal with
    | |- context [Str.slice 2 ?d url] => generalize d; intros delim
    end.
    destruct (brackets_ok (Str.slice 2 delim url)); [| discriminate].
    intros H. injection H as <-. cbn. repeat split; try assumption.
    + apply clean_slice_to, clean_slice_from, Hurl.
    + apply before_keeps_clean, before_keeps_clean, clean_slice_from, Hurl.
    + apply after_keeps_clean, clean_slice_from, Hurl.
  - cbn. intros H. injection H as <-. cbn. repeat split; try assumption.
    + apply before_keeps_clean, before_keeps_clean, Hurl.
    + apply after_keeps_clean, Hurl.
Qed.

Lemma clean_urlsplit (c : ascii) (url : string) (p : urlparse.SplitResult) :
  is_bracket c = true -> Str.contains c url = false ->
  urlparse.urlsplit url = inr p ->
  Str.contains c (urlparse.scheme p) = false /\
  Str.contains c (urlparse.netloc p) = false /\
  Str.contains c (urlparse.path p) = false /\
  Str.contains c (urlparse.fragment p) = false.
Proof.
  intros Hc Hurl. unfold urlparse.urlsplit.
  assert (Hlow : forall i, Str.contains c (Str.lower (Str.slice_to i url)) = false)
    by (intros i; apply clean_lower, clean_slice_to; assumption).
  destruct (Str.find ":" url) as [[| i] |];
    try (apply clean_split_rest; [reflexivity | exact Hurl]).
  destruct (String.eqb (Str.slice_to (S i) url) "http");
    [apply clean_split_rest; [apply Hlow | apply clean_slice_from, Hurl] |].
  destruct (Str.all urlparse.scheme_char (Str.slice_to (S i) url));
    [| apply clean_split_rest; [reflexivity | exact Hurl]].
  destruct (String.eqb (Str.slice_from (S i + 1) url) ""
            || negb (Str.all Str.is_digit (Str.slice_from (S i + 1) url)));
    [apply clean_split_rest; [apply Hlow | apply clean_slice_from, Hurl]
    | apply clean_split_rest; [reflexivity | exact Hurl]].
Qed.

Lemma clean_urlunsplit (c : ascii) (scheme netloc path query fragment : string) :
  is_bracket c = true ->
  Str.contains c scheme = false -> Str.contains c netloc = false ->
  Str.contains c path = false -> Str.contains c query = false ->
  Str.contains c fragment = false ->
  Str.contains c (urlparse.urlunsplit scheme netloc path query fragment) = false.
Proof.
  intros Hc Hs Hn Hp Hq Hf. unfold urlparse.urlunsplit.
  destruct (is_bracket_cases _ Hc) as [-> | ->];
    repeat match goal with
           | |- context [if ?b then _ else _] => destruct b
           end;
    rewrite ?contains_app, ?Hs, ?Hn, ?Hp, ?Hq, ?Hf; reflexivity.
Qed.

(** The URL [_add_json_format] returns has a square bracket only if the URL
    it was given has one. *)
Lemma add_json_format_bracket_free (c : ascii) (url url' : string) :
  is_bracket c = true -> Str.contains c url = false ->
  _add_json_format url = inr url' -> Str.contains c url' = false.
Proof.
  intros Hc Hurl. unfold _add_json_format.
  destruct (urlparse.urlsplit url) as [e | parts] eqn:Hsplit; [discriminate |].
  intros H. injection H as <-.
  destruct (@clean_urlsplit c url parts Hc Hurl Hsplit) as (Hs & Hn & Hp & Hf).
  apply clean_urlunsplit; try assumption. now apply clean_urlencode.
Qed.

(** ** The [Request] constructor *)

Lemma clean_lstrip (c : ascii) (s : string) :
  Str.contains c s = false -> Str.contains c (Str.lstrip s) = false.
Proof.
  induction s as [| a s IH]; cbn; [reflexivity |].
  intros H. destruct (Str.is_space a); [| exact H].
  apply orb_false_iff in H as [_ H]. now apply IH.
Qed.

Lemma clean_rstrip (c : ascii) (s : string) :
  Str.contains c s = false -> Str.contains c (Str.rstrip s) = false.
Proof.
  induction s as [| a s IH]; cbn; [reflexivity |].
  intros H. apply orb_false_iff in H as [Ha Hs]. specialize (IH Hs).
  destruct (Str.rstrip s) as [| b r].
  - destruct (Str.is_space a); cbn; [reflexivity | now rewrite Ha].
  - cbn [Str.contains] in *. now rewrite Ha, IH.
Qed.

Lemma clean_strip (c : ascii) (s : string) :
  Str.contains c s = false -> Str.contains c (Str.strip s) = false.
Proof. intros H. now apply clean_rstrip, clean_lstrip. Qed.

Lemma clean_drop_last (c : ascii) (s : string) :
  Str.contains c s = false -> Str.contains c (Str.drop_last s) = false.
Proof.
  induction s as [| a s IH]; cbn; [reflexivity |].
  intros H. apply orb_false_iff in H as [Ha Hs]. specialize (IH Hs).
  destruct s as [| b s]; [reflexivity |].
  cbn [Str.contains] in *. now rewrite Ha, IH.
Qed.

Lemma clean_unwrap (c : ascii) (url : string) :
  Str.contains c url = false -> Str.contains c (urllib2.unwrap url) = false.
Proof.
  intros H. unfold urllib2.unwrap.
  repeat match goal with
         | |- context [if ?b then _ else _] => destruct b
         end;
    repeat (apply clean_strip || apply clean_slice_from || apply clean_drop_last);
    exact H.
Qed.

Lemma clean_rsplit_once (c d : ascii) (s l r : string) :
  Str.contains c s = false -> Str.rsplit_once d s = Some (l, r) ->
  Str.contains c l = false /\ Str.contains c r = false.
Proof.
  revert l r. induction s as [| a s IH]; cbn; [discriminate |].
  intros l r H. apply orb_false_iff in H as [Ha Hs].
  destruct (Str.rsplit_once d s) as [[l' r'] |].
  - intros E. injection E as <- <-. destruct (IH _ _ Hs eq_refl) as [Hl Hr].
    cbn. now rewrite Ha, Hl.
  - destruct (Ascii.eqb a d); [| discriminate].
    intros E. injection E as <- <-. split; [reflexivity | exact Hs].
Qed.

(** Every URL without a square bracket makes a [Request]. *)
Lemma request_accepts (url : string) (data : option string) :
  Str.contains "[" url = false -> Str.contains "]" url = false ->
  exists request, urllib2.new url data = inr request.
Proof.
  intros Hl Hr. unfold urllib2.new.
  destruct (urllib2.splittag (urllib2.unwrap url)) as [original fragment] eqn:Htag.
  assert (Hfull : forall c, is_bracket c = true -> Str.contains c url = false ->
            Str.contains c
              (urllib2.get_full_url (urllib2.mkRequest original fragment data [])) = false).
  { intros c Hc Hu. apply clean_unwrap in Hu.
    unfold urllib2.splittag in Htag. unfold urllib2.get_full_url.
    cbn [urllib2.fragment urllib2.original].
    destruct (Str.rsplit_once "#" (urllib2.unwrap url)) as [[path tag] |] eqn:Hsplit.
    - destruct (@clean_rsplit_once c _ _ _ _ Hu Hsplit) as [Hp Ht].
      destruct (Str.contains "010" path); injection Htag as <- <-; [exact Hu |].
      destruct tag as [| t tag]; [exact Hp |].
      rewrite !contains_app, Hp, Ht.
      destruct (is_bracket_cases _ Hc) as [-> | ->]; reflexivity.
    - injection Htag as <- <-. exact Hu. }
  destruct (@urlsplit_accepts
              (urllib2.get_full_url (urllib2.mkRequest original fragment data [])))
    as (parts & ->); [now apply Hfull | now apply Hfull |].
  eexists. reflexivity.
Qed.

(** Whatever the client, [_request] gets as far as [self.opener.open] for
    every URL without a square bracket: neither URL rewriting nor the
    [Request] constructor raises. *)
Lemma prepare_accepts (CookieJar : Type) (self : FamilySearch CookieJar)
    (url : string) (data : option string) :
  Str.contains "[" url = false -> Str.contains "]" url = false ->
  exists request, prepare self url data = inr request.
Proof.
  intros Hl Hr. unfold prepare.
  destruct (add_json_format_accepts url Hl Hr) as (url' & Hurl). rewrite Hurl.
  destruct (@request_accepts url' data) as (request & ->).
  - eapply add_json_format_bracket_free; [reflexivity | exact Hl | exact Hurl].
  - eapply add_json_format_bracket_free; [reflexivity | exact Hr | exact Hurl].
  - eexists. reflexivity.
Qed.

(** ** URL rewriting on concrete URLs *)

Example add_json_format_login_url :
  _add_json_format "http://www.dev.usys.org/identity/v2/login"
  = inr "http://www.dev.usys.org/identity/v2/login?dataFormat=application%2Fjson".
Proof. reflexivity. Qed.

Example add_json_format_keeps_pairs :
  _add_json_format "https://api.familysearch.org/p?a=1&dataFormat=xml#top"
  = inr "https://api.familysearch.org/p?a=1&dataFormat=xml&dataFormat=application%2Fjson#top".
Proof. reflexivity. Qed.

(** C1: on a URL whose query has a pair with an empty value, the pair
    [a=] is missing from the query of the URL [_add_json_format] returns:
    [parse_qsl] is called with its default [keep_blank_values=0], so the
    claim that every original pair is kept does not hold of the code. *)
Theorem C1_blank_valued_pair_dropped :
  urlparse.urlsplit "http://www.dev.usys.org/identity/v2/login?a=&b=1"
  = inr (urlparse.mkSplitResult "http" "www.dev.usys.org" "/identity/v2/login"
           "a=&b=1" "") /\
  urlparse.parse_qsl "a=&b=1" = [("b", "1")] /\
  _add_json_format "http://www.dev.usys.org/identity/v2/login?a=&b=1"
  = inr "http://www.dev.usys.org/identity/v2/login?b=1&dataFormat=application%2Fjson".
Proof. repeat split; reflexivity. Qed.

(** ** The client against the stand-in service *)

#[local] Abbreviation mock_init :=
  (@__init__ Mock.Response Mock.CookieJar Mock.Server Mock.empty_jar
     Mock.opener_open Mock.identity_parse_session_id Mock.dict_items).
#[local] Abbreviation mock_construct_then_login :=
  (@construct_then_login Mock.Response Mock.CookieJar Mock.Server Mock.empty_jar
     Mock.opener_open Mock.identity_parse_session_id Mock.dict_items).
#[local] Abbreviation mock_authenticate :=
  (@authenticate Mock.Response Mock.CookieJar Mock.Server
     Mock.opener_open Mock.identity_parse_session_id Mock.dict_items).
#[local] Abbreviation mock_initialize :=
  (@initialize Mock.Response Mock.CookieJar Mock.Server
     Mock.opener_open Mock.identity_parse_session_id Mock.dict_items).
#[local] Abbreviation mock_fresh := (@fresh Mock.CookieJar Mock.empty_jar).
#[local] Abbreviation net0 := (@mkNet Mock.Server 0 []).

Example login_stores_and_returns_session :
  @login Mock.Response Mock.CookieJar Mock.Server
    Mock.opener_open Mock.identity_parse_session_id Mock.dict_items
    (PyStr "alice") (PyStr "secret")
    (mock_fresh "ClientApp/1.0" (PyStr "developer_key") PyNone default_base) net0
  = (inr (PyStr "S123"),
     mkFamilySearch "ClientApp/1.0 Python-FS-Stack/0.1" (PyStr "developer_key")
       (PyStr "S123") "http://www.dev.usys.org"
       "http://www.dev.usys.org/identity/v2/login"
       "http://www.dev.usys.org/identity/v2/initialize"
       "http://www.dev.usys.org/identity/v2/authenticate"
       ["sessionid=S123"],
     mkNet 1
       [urllib2.mkRequest
          "http://www.dev.usys.org/identity/v2/login?dataFormat=application%2Fjson"
          None (Some "username=alice&password=secret&key=developer_key")
          [("User-agent", "ClientApp/1.0 Python-FS-Stack/0.1")]]).
Proof. reflexivity. Qed.

Example login_refused_keeps_session :
  @login Mock.Response Mock.CookieJar Mock.Server
    Mock.opener_refused Mock.identity_parse_session_id Mock.dict_items
    (PyStr "alice") (PyStr "secret")
    (mock_fresh "ClientApp/1.0" (PyStr "developer_key") (PyStr "session_id") default_base)
    net0
  = (inl (ExternalError "URLError"),
     mock_fresh "ClientApp/1.0" (PyStr "developer_key") (PyStr "session_id") default_base,
     mkNet 0
       [urllib2.mkRequest
          "http://www.dev.usys.org/identity/v2/login?dataFormat=application%2Fjson"
          None (Some "username=alice&password=secret&key=developer_key")
          [("User-agent", "ClientApp/1.0 Python-FS-Stack/0.1")]]).
Proof. reflexivity. Qed.

Example authenticate_request_rejected :
  _add_json_format "http:////[x/identity/v2/authenticate"
  = inr "http://[x/identity/v2/authenticate?dataFormat=application%2Fjson" /\
  mock_authenticate (PyStr "alice") (PyStr "secret")
    (mock_fresh "ClientApp/1.0" (PyStr "developer_key") (PyStr "session_id") "http:////[x")
    net0
  = (inl (ValueError "Invalid IPv6 URL"),
     mock_fresh "ClientApp/1.0" (PyStr "developer_key") (PyStr "session_id") "http:////[x",
     net0).
Proof. split; reflexivity. Qed.

Lemma C10_witness :
  exists self,
    mock_init "ClientApp/1.0" (PyStr "developer_key") (PyStr "") (PyStr "password")
      (PyStr "session_id") default_base net0
    = (Return tt, self, net0) /\
    session self = PyStr "session_id".
Proof.
  apply C10_no_login_without_credentials. right; left; reflexivity.
Defined.

(** C3 as stated fails when a supplied username is the empty string: the
    constructor's [if username and password] skips [login], while
    [login('', 'password')] on a client constructed without credentials
    sends its request and stores the session. *)
Lemma C3_counterexample_empty_username :
  ~ same_behaviour
      (mock_init "ClientApp/1.0" (PyStr "developer_key") (PyStr "") (PyStr "password")
         PyNone default_base net0)
      (mock_construct_then_login "ClientApp/1.0" (PyStr "developer_key") (PyStr "")
         (PyStr "password") PyNone default_base net0).
Proof.
  unfold same_behaviour. vm_compute. intros (H & _). discriminate H.
Qed.

Lemma C3_witness :
  same_behaviour
    (mock_init "ClientApp/1.0" (PyStr "developer_key") (PyStr "username")
       (PyStr "password") PyNone default_base net0)
    (mock_construct_then_login "ClientApp/1.0" (PyStr "developer_key") (PyStr "username")
       (PyStr "password") PyNone default_base net0).
Proof.
  apply C3_construct_with_credentials; reflexivity.
Defined.

Lemma C8_witness :
  let self := mock_fresh "ClientApp/1.0" (PyStr "developer_key") PyNone default_base in
  let run := mock_authenticate (PyStr "username") (PyStr "password")
               (with_session self PyNone) net0 in
  let request :=
    urllib2.mkRequest
      "http://www.dev.usys.org/identity/v2/authenticate?dataFormat=application%2Fjson"
      None (Some "username=username&password=password")
      [("User-agent", "ClientApp/1.0 Python-FS-Stack/0.1")] in
  sent (snd run) = (sent net0 ++ [request])%list /\
  urllib2.get_method request = "POST" /\
  fst (fst run)
  = transport_then_parse Mock.opener_open Mock.identity_parse_session_id self net0 request /\
  authenticate_sends Mock.opener_open Mock.identity_parse_session_id Mock.dict_items
    (PyStr "username") (PyStr "password") (with_session self PyNone) net0.
Proof.
  apply (@C8_authenticate_without_initialize Mock.Response Mock.CookieJar Mock.Server
           Mock.opener_open Mock.identity_parse_session_id Mock.dict_items
           (PyStr "username") (PyStr "password")
           (mock_fresh "ClientApp/1.0" (PyStr "developer_key") PyNone default_base) net0
           "http://www.dev.usys.org/identity/v2/authenticate?dataFormat=application%2Fjson"
           (urllib2.mkRequest
              "http://www.dev.usys.org/identity/v2/authenticate?dataFormat=application%2Fjson"
              None (Some "username=username&password=password") []));
    reflexivity.
Defined.

(** C8 as stated fails on a client whose base URL [urlsplit] rejects:
    [authenticate] raises [ValueError] while rewriting its endpoint URL and
    sends nothing, though neither the opener nor the parser raises. *)
Lemma C8_counterexample_rejected_base :
  ~ authenticate_sends Mock.opener_open Mock.identity_parse_session_id Mock.dict_items
      (PyStr "username") (PyStr "password")
      (mock_fresh "ClientApp/1.0" (PyStr "developer_key") PyNone "http://[bad") net0.
Proof.
  unfold authenticate_sends. intros (request & Hsent & _).
  vm_compute in Hsent. discriminate Hsent.
Qed.


Lemma X1_witness :
  exists url' query,
    _add_json_format "https://api.familysearch.org/p?a=1&b=x%26y#top" = inr url' /\
    urlparse.urlsplit url'
    = inr (urlparse.mkSplitResult "https" "api.familysearch.org" "/p" query "top") /\
    urlparse.parse_qsl query
    = [("a", "1"); ("b", "x&y"); ("dataFormat", "application/json")].
Proof.
  apply (@add_json_format_components "https://api.familysearch.org/p?a=1&b=x%26y#top"
           (urlparse.mkSplitResult "https" "api.familysearch.org" "/p" "a=1&b=x%26y" "top")).
  - reflexivity.
  - discriminate.
Defined.

Lemma X3_witness :
  exists url1 url2 query,
    _add_json_format "http://www.dev.usys.org/identity/v2/login" = inr url1 /\
    _add_json_format url1 = inr url2 /\
    urlparse.urlsplit url2
    = inr (urlparse.mkSplitResult "http" "www.dev.usys.org" "/identity/v2/login" query "") /\
    urlparse.parse_qsl query
    = [("dataFormat", "application/json"); ("dataFormat", "application/json")].
Proof.
  apply (@X3_add_json_format_twice "http://www.dev.usys.org/identity/v2/login"
           (urlparse.mkSplitResult "http" "www.dev.usys.org" "/identity/v2/login" "" "")).
  - reflexivity.
  - discriminate.
Defined.

Lemma X4_witness :
  exists fields,
    Permutation fields [("username", "al ice"); ("password", "s&cr=t%"); ("key", "None")] /\
    urlparse.parse_qsl
      (urlencode_dict Mock.dict_items
         [("username", PyStr "al ice"); ("password", PyStr "s&cr=t%"); ("key", PyNone)])
    = fields.
Proof.
  apply (@X4_form_body_decodes Mock.dict_items
           [("username", PyStr "al ice"); ("password", PyStr "s&cr=t%"); ("key", PyNone)]).
  - intros d. apply Permutation_refl.
  - repeat constructor; discriminate.
Defined.

Lemma X5_witness :
  let self := mock_fresh "ClientApp/1.0" (PyStr "developer_key") PyNone default_base in
  exists fields,
    Permutation fields
      [("username", "alice"); ("password", "secret"); ("key", "developer_key")] /\
    match
      prepare self "http://www.dev.usys.org/identity/v2/login"
        (Some (urllib.urlencode fields))
    with
    | inl _ =>
        sent (snd (@login Mock.Response Mock.CookieJar Mock.Server
                     Mock.opener_open Mock.identity_parse_session_id Mock.dict_items
                     (PyStr "alice") (PyStr "secret") self net0))
        = sent net0
    | inr request =>
        sent (snd (@login Mock.Response Mock.CookieJar Mock.Server
                     Mock.opener_open Mock.identity_parse_session_id Mock.dict_items
                     (PyStr "alice") (PyStr "secret") self net0))
        = (sent net0 ++ [request])%list /\
        (exists url',
           _add_json_format "http://www.dev.usys.org/identity/v2/login" = inr url' /\
           urllib2.get_full_url request = normalized url') /\
        urllib2.headers request = [("User-agent", "ClientApp/1.0 Python-FS-Stack/0.1")] /\
        urllib2.get_method request = "POST" /\
        urllib2.data request = Some (urllib.urlencode fields)
    end.
Proof.
  exact (@X5_login_request Mock.Response Mock.CookieJar Mock.Server
           Mock.opener_open Mock.identity_parse_session_id Mock.dict_items
           (fun d => Permutation_refl d)
           (PyStr "alice") (PyStr "secret")
           (mock_fresh "ClientApp/1.0" (PyStr "developer_key") PyNone default_base) net0).
Defined.

Lemma X12_witness :
  let self := mock_fresh "ClientApp/1.0" (PyStr "developer_key") PyNone default_base in
  @run_calls Mock.Response Mock.CookieJar Mock.Server
    Mock.opener_open Mock.identity_parse_session_id Mock.dict_items
    [Dispatch "http://www.dev.usys.org/a" None;
     Dispatch "http://www.dev.usys.org/b?x=1" (Some "y=2")] self net0
  = (with_opener self ["sessionid=S123"; "sessionid=S123"],
     mkNet 2
       [urllib2.mkRequest "http://www.dev.usys.org/a?dataFormat=application%2Fjson"
          None None [("User-agent", "ClientApp/1.0 Python-FS-Stack/0.1")];
        urllib2.mkRequest "http://www.dev.usys.org/b?x=1&dataFormat=application%2Fjson"
          None (Some "y=2") [("User-agent", "ClientApp/1.0 Python-FS-Stack/0.1")]]).
Proof.
  exact (@X12_cookies_persist Mock.Response Mock.CookieJar Mock.Server
           Mock.opener_open Mock.identity_parse_session_id Mock.dict_items
           "http://www.dev.usys.org/a" "http://www.dev.usys.org/b?x=1" None (Some "y=2")
           (mock_fresh "ClientApp/1.0" (PyStr "developer_key") PyNone default_base) net0
           (urllib2.mkRequest "http://www.dev.usys.org/a?dataFormat=application%2Fjson"
              None None [("User-agent", "ClientApp/1.0 Python-FS-Stack/0.1")])
           (urllib2.mkRequest "http://www.dev.usys.org/b?x=1&dataFormat=application%2Fjson"
              None (Some "y=2") [("User-agent", "ClientApp/1.0 Python-FS-Stack/0.1")])
           eq_refl eq_refl).
Defined.

Lemma X13_witness :
  let self := mock_fresh "ClientApp/1.0" (PyStr "developer_key") PyNone default_base in
  let first := mock_initialize self net0 in
  let second := mock_authenticate (PyStr "alice") (PyStr "secret") (snd (fst first))
                  (snd first) in
  let first_post :=
    urllib2.mkRequest
      "http://www.dev.usys.org/identity/v2/initialize?dataFormat=application%2Fjson"
      None (Some "key=developer_key")
      [("User-agent", "ClientApp/1.0 Python-FS-Stack/0.1")] in
  let posted :=
    urllib2.mkRequest
      "http://www.dev.usys.org/identity/v2/authenticate?dataFormat=application%2Fjson"
      None (Some "username=alice&password=secret")
      [("User-agent", "ClientApp/1.0 Python-FS-Stack/0.1")] in
  sent (snd second) = (sent net0 ++ [first_post; posted])%list /\
  fst (fst second)
  = transport_then_parse Mock.opener_open Mock.identity_parse_session_id
      (snd (fst first)) (snd first) posted /\
  match fst (fst second) with
  | inr id => session (snd (fst second)) = id
  | inl _ => session (snd (fst second)) = session (snd (fst first))
  end.
Proof.
  apply (@X13_initialize_then_authenticate Mock.Response Mock.CookieJar Mock.Server
           Mock.opener_open Mock.identity_parse_session_id Mock.dict_items
           (PyStr "alice") (PyStr "secret")
           (mock_fresh "ClientApp/1.0" (PyStr "developer_key") PyNone default_base) net0);
    reflexivity.
Defined.

Lemma X14_witness :
  match
    mock_init "ClientApp/1.0" (PyStr "developer_key") (PyStr "alice") (PyStr "secret")
      (PyStr "old_session") default_base net0
  with
  | (inr _, self, net') =>
      exists request response,
        sent net' = (sent net0 ++ [request])%list /\
        Mock.opener_open Mock.empty_jar (server net0) request
          = (inr response, opener self, server net') /\
        Mock.identity_parse_session_id response = inr (session self)
  | (inl _, self, _) => session self = PyStr "old_session"
  end.
Proof.
  exact (@X14_constructor_logs_in Mock.Response Mock.CookieJar Mock.Server Mock.empty_jar
           Mock.opener_open Mock.identity_parse_session_id Mock.dict_items
           "ClientApp/1.0" (PyStr "developer_key") (PyStr "alice") (PyStr "secret")
           (PyStr "old_session") default_base net0 eq_refl eq_refl).
Defined.
